(** * Family Wellness web app (web_app.py): session lifecycle and crisis filter

    A shallow embedding of the Streamlit script [web_app.py].  Python [str]
    values are [string]s (the UTF-8 bytes of the text), the session store
    [st.session_state] is a record, every widget interaction is an [event],
    and one execution of the script from top to bottom is the function
    [script]; [st.rerun()] and [st.stop()] are its two early exits.  The
    hosted provider is an oracle that answers each network call from the
    history of the calls made so far; every call is recorded in a log. *)

From Stdlib Require Import Bool List ZArith Lia.
From Stdlib Require Import Ascii String.
Import ListNotations.

Open Scope list_scope.
Open Scope string_scope.

(** ** Python string primitives *)

Module PyStr.

(** [s.startswith(p)]. *)
Fixpoint startswith (p s : string) : bool :=
  match p, s with
  | EmptyString, _ => true
  | String a p', String b s' => Ascii.eqb a b && startswith p' s'
  | String _ _, EmptyString => false
  end.

(** The operator [sub in s] on two strings: [sub] occurs in [s] at some
    offset. *)
Fixpoint str_in (sub s : string) : bool :=
  startswith sub s ||
  match s with
  | EmptyString => false
  | String _ s' => str_in sub s'
  end.

(** Truthiness of a string: only the empty string is falsy. *)
Definition truthy (s : string) : bool :=
  match s with
  | EmptyString => false
  | String _ _ => true
  end.

(** What [sub in s] means: [s] splits around a copy of [sub]. *)
Definition Substring (sub s : string) : Prop :=
  exists pre post, s = pre ++ sub ++ post.





(** [str.lower] on text that is pure ASCII: the letters A-Z move to a-z and
    everything else stays. *)
Definition ascii_lower_char (c : ascii) : ascii :=
  let n := nat_of_ascii c in
  if (65 <=? n)%nat && (n <=? 90)%nat then ascii_of_nat (n + 32) else c.

Fixpoint ascii_lower (s : string) : string :=
  match s with
  | EmptyString => EmptyString
  | String c s' => String (ascii_lower_char c) (ascii_lower s')
  end.

End PyStr.

(** ** The persona registry: [PERSONALITIES] *)

Inductive persona_key : Type := sage | nurture | spark | bridge.

Definition persona_key_eqb (a b : persona_key) : bool :=
  match a, b with
  | sage, sage | nurture, nurture | spark, spark | bridge, bridge => true
  | _, _ => false
  end.

Definition key_name (k : persona_key) : string :=
  match k with
  | sage => "sage"
  | nurture => "nurture"
  | spark => "spark"
  | bridge => "bridge"
  end.

Module Persona.
Record t : Type := mk {
  name : string;
  role : string;
  description : string;
  prompt : string
}.
End Persona.

Definition PERSONALITIES (k : persona_key) : Persona.t :=
  match k with
  | sage => {|
      Persona.name := "🧠 Sage";
      Persona.role := "Youth Mental Health Counselor";
      Persona.description := "For teenagers and young adults (mental health, academics)";
      Persona.prompt := "You are Sage, a supportive AI counselor for Indian youth aged 13-25. You understand academic pressure, family expectations, and cultural challenges. Always:
- Provide empathetic, non-judgmental support
- Recognize signs of serious mental health concerns
- Offer practical coping strategies rooted in Indian context
- Bridge communication gaps between youth and families
- Use encouraging, culturally sensitive language" |}
  | nurture => {|
      Persona.name := "🤱 Nurture";
      Persona.role := "Parenting Guide";
      Persona.description := "For parents and guardians (parenting strategies)";
      Persona.prompt := "You are Nurture, an experienced parenting guide for Indian families. You understand diverse family structures, cultural values, and developmental science. Always:
- Provide evidence-based parenting strategies
- Respect cultural traditions while promoting healthy development
- Adapt advice for different socioeconomic contexts
- Support parents' mental health and well-being
- Offer practical, actionable guidance" |}
  | spark => {|
      Persona.name := "✨ Spark";
      Persona.role := "Child Development Specialist";
      Persona.description := "For child development activities and learning";
      Persona.prompt := "You are Spark, a child development specialist creating engaging, age-appropriate activities. You understand Indian cultural contexts and diverse learning needs. Always:
- Design inclusive activities for all abilities
- Incorporate cultural elements and local resources
- Provide clear, step-by-step instructions
- Suggest modifications for special needs
- Make learning fun and engaging" |}
  | bridge => {|
      Persona.name := "🌉 Bridge";
      Persona.role := "Family Communication Mediator";
      Persona.description := "For family communication and conflict resolution";
      Persona.prompt := "You are Bridge, a family communication specialist helping resolve conflicts and improve understanding. Always:
- Remain neutral and understanding
- Suggest practical communication strategies
- Help different generations understand each other
- Provide conflict resolution techniques
- Support healthy family dynamics" |}
  end.

(** ** The crisis filter *)

Definition crisis_keywords : list string :=
  ["suicide"; "kill myself"; "end it all"; "hurt myself"; "die"; "worthless"].

Section CrisisFilter.

(** Python's [str.lower].  On arbitrary Unicode text it is not a
    character-by-character map, so it is left as a parameter here;
    [PyStr.ascii_lower] is what it does on ASCII text. *)
Variable lower : string -> string.

Definition check_crisis_keywords (message : string) : bool :=
  existsb (fun keyword => PyStr.str_in keyword (lower message)) crisis_keywords.

End CrisisFilter.

Definition get_crisis_response : string :=
"🚨 I'm concerned about what you've shared. Your feelings are valid, but help is available.

**Please reach out immediately:**
- **India - Suicide Prevention**: 104 (24/7)
- **KIRAN Mental Health**: 1800-599-0019
- **Vandrevala Foundation**: 9999666555
- **iCall Psychosocial Helpline**: 9152987821

You don't have to face this alone. Would you like to talk about what's making you feel this way?".

(** ** Session state and the provider *)

Definition nl : string := String (ascii_of_nat 10) EmptyString.

(** One entry of [st.session_state.messages]. *)
Record message : Type := mkMessage {
  role : string;
  content : string
}.

(** The handle [genai.GenerativeModel('gemini-pro')] built after
    [genai.configure(api_key=...)]. *)
Record GenerativeModel : Type := mkModel {
  model_name : string;
  configured_key : string
}.

(** One entry of the [history] argument of [start_chat]. *)
Record turn : Type := mkTurn {
  turn_role : string;
  parts : list string
}.

(** The object returned by [model.start_chat(history=...)]. *)
Record ChatSession : Type := mkChat {
  chat_model : GenerativeModel;
  history : list turn
}.

Definition start_chat (m : GenerativeModel) (h : list turn) : ChatSession :=
  {| chat_model := m; history := h |}.

(** [st.session_state]. *)
Record session_state : Type := mkSession {
  messages : list message;
  personality : persona_key;
  chat_session : option ChatSession;
  api_key_valid : bool;
  model : option GenerativeModel
}.

(** The block "Initialize session state" run on an empty store. *)
Definition initial_session : session_state :=
  {| messages := [];
     personality := sage;
     chat_session := None;
     api_key_valid := false;
     model := None |}.

Definition set_messages (l : list message) (s : session_state) : session_state :=
  {| messages := l;
     personality := personality s;
     chat_session := chat_session s;
     api_key_valid := api_key_valid s;
     model := model s |}.

Definition set_personality (k : persona_key) (s : session_state) : session_state :=
  {| messages := messages s;
     personality := k;
     chat_session := chat_session s;
     api_key_valid := api_key_valid s;
     model := model s |}.

Definition set_chat_session (c : option ChatSession) (s : session_state)
  : session_state :=
  {| messages := messages s;
     personality := personality s;
     chat_session := c;
     api_key_valid := api_key_valid s;
     model := model s |}.

Definition set_api_key_valid (b : bool) (s : session_state) : session_state :=
  {| messages := messages s;
     personality := personality s;
     chat_session := chat_session s;
     api_key_valid := b;
     model := model s |}.

Definition set_model (m : option GenerativeModel) (s : session_state)
  : session_state :=
  {| messages := messages s;
     personality := personality s;
     chat_session := chat_session s;
     api_key_valid := api_key_valid s;
     model := m |}.

(** [st.session_state.messages.append(m)]. *)
Definition append_message (m : message) (s : session_state) : session_state :=
  set_messages (messages s ++ [m])%list s.

(** The two network calls the script makes. *)
Inductive call : Type :=
| GenerateContent (m : GenerativeModel) (text : string)
| SendMessage (c : ChatSession) (text : string).

(** What a call gives back: the generated text, or an exception whose
    [str(e)] is [reason]. *)
Inductive reply : Type :=
| Ok (text : string)
| Raise (reason : string).

(** The session store together with the log of provider calls made so far. *)
Record world : Type := mkWorld {
  session : session_state;
  calls : list call
}.

Definition initial_world : world :=
  {| session := initial_session; calls := [] |}.

(** One widget interaction delivered to a run of the script. *)
Inductive event : Type :=
| Render
| ClickValidate (api_key : string)
| ClickPersonality (key : persona_key)
| ClickAssess (age_group concern : string) (mood : Z)
| ClickClear
| ClickChangeKey
| ChatInput (prompt : string).

(** How a run of the script ends. *)
Inductive outcome : Type :=
| Rerun (w : world)
| Stopped (w : world)
| Completed (w : world).

Definition world_of (o : outcome) : world :=
  match o with
  | Rerun w | Stopped w | Completed w => w
  end.

(** ** Text templates *)

(** The f-string appended to the log by the greeting synthesis. *)
Definition greeting (p : Persona.t) : string :=
  "Hello! I'm " ++ Persona.name p ++ ", your " ++ Persona.role p
  ++ ". How can I support you today?".

(** The [history] that [initialize_chat_session] seeds the chat with. *)
Definition seed_history (p : Persona.t) : list turn :=
  [ {| turn_role := "user";
       parts := ["Hello, I need help with family wellness and development."] |};
    {| turn_role := "model";
       parts := [Persona.prompt p ++ nl ++ nl ++ greeting p] |} ].

(** The triple-quoted f-string [context_prompt]; its second line holds the
    twenty blanks of the source's indentation, and so does the start of its
    third. *)
Definition context_prompt (p : Persona.t) (prompt : string) : string :=
  "As " ++ Persona.name p ++ ", a " ++ Persona.role p ++ ", respond to: "
  ++ prompt ++ nl
  ++ "                    " ++ nl
  ++ "                    Remember: " ++ Persona.prompt p.


(** The text substituted for the reply when the chat call raises [e]. *)
Definition apology (reason : string) : string :=
  "I apologize, but I encountered an error: " ++ reason ++ ". Please try again.".

(** [str(e)] of the [AttributeError] raised by [None.send_message]. *)
Definition none_send_message_error : string :=
  "'NoneType' object has no attribute 'send_message'".

(** ** The recommendation cascade of "Get Recommendation" *)

(** [x in l] on a list of strings. *)
Definition in_list (x : string) (l : list string) : bool :=
  existsb (String.eqb x) l.

Definition rec_personality (age_group concern : string) : persona_key :=
  if in_list age_group ["13-17"; "18-25"]
     && in_list concern ["Mental health"; "Academic stress"]
  then sage
  else if String.eqb age_group "Parent/Guardian"
          && in_list concern ["Parenting"; "Child development"]
  then nurture
  else if String.eqb concern "Child development"
  then spark
  else bridge.

(** The options of the two select boxes. *)
Definition age_group_options : list string :=
  ["13-17"; "18-25"; "Parent/Guardian"; "Other"].

Definition concern_options : list string :=
  ["Mental health"; "Academic stress"; "Parenting"; "Child development";
   "Family communication"].

(** The decision table as the specification gives it: rows of (condition on
    the age group, condition on the concern, persona), read top to bottom,
    with a default when no row matches. *)
Module DecisionTable.

Record row : Type := mkRow {
  age_matches : string -> bool;
  concern_matches : string -> bool;
  result : persona_key
}.

Definition one_of (l : list string) (x : string) : bool := existsb (String.eqb x) l.
Definition any (_ : string) : bool := true.

Definition table : list row :=
  [ {| age_matches := one_of ["13-17"; "18-25"];
       concern_matches := one_of ["Mental health"; "Academic stress"];
       result := sage |};
    {| age_matches := one_of ["Parent/Guardian"];
       concern_matches := one_of ["Parenting"; "Child development"];
       result := nurture |};
    {| age_matches := any;
       concern_matches := one_of ["Child development"];
       result := spark |} ].

Definition otherwise : persona_key := bridge.

Fixpoint first_match (rows : list row) (age_group concern : string)
  : persona_key :=
  match rows with
  | [] => otherwise
  | r :: rest =>
      if age_matches r age_group && concern_matches r concern
      then result r
      else first_match rest age_group concern
  end.

Definition lookup : string -> string -> persona_key := first_match table.

End DecisionTable.

(** ** The script *)

Section Script.

(** Python's [str.lower], as in the crisis filter. *)
Variable lower : string -> string.

(** The hosted provider: its answer to a call, given the calls made before
    it.  The chat object keeps its own turn history on the provider's side,
    which is why the answer may depend on the whole log. *)
Variable provider : list call -> call -> reply.

(** [validate_api_key]: [(True, model)] is [inl model] and [(False, str(e))]
    is [inr reason]; the second component is the call log afterwards. *)
Definition validate_api_key (api_key : string) (log : list call)
  : (GenerativeModel + string) * list call :=
  let model := {| model_name := "gemini-pro"; configured_key := api_key |} in
  let probe := GenerateContent model "Hello" in
  match provider log probe with
  | Ok _ => (inl model, (log ++ [probe])%list)
  | Raise e => (inr e, (log ++ [probe])%list)
  end.

(** [initialize_chat_session]: the returned flag and the store afterwards. *)
Definition initialize_chat_session (personality_key : persona_key)
    (s : session_state) : bool * session_state :=
  match model s with
  | None => (false, s)
  | Some m =>
      let personality := PERSONALITIES personality_key in
      (true, set_chat_session (Some (start_chat m (seed_history personality))) s)
  end.

(** The page "Setup Your API Key", shown while the key is not validated;
    it always ends in [st.rerun()] or [st.stop()]. *)
Definition setup_page (w : world) (e : event) : outcome :=
  match e with
  | ClickValidate api_key =>
      if PyStr.truthy api_key then
        let '(result, log) := validate_api_key api_key (calls w) in
        match result with
        | inl m =>
            Rerun {| session := set_model (Some m)
                                  (set_api_key_valid true (session w));
                     calls := log |}
        | inr _ => Stopped {| session := session w; calls := log |}
        end
      else Stopped w
  | _ => Stopped w
  end.

(** What switching to persona [k] does to the store (the three assignments
    shared by the personality buttons and the recommendation). *)
Definition switch_to (k : persona_key) (s : session_state) : session_state :=
  set_chat_session None (set_messages [] (set_personality k s)).

(** The left column.  [inl w'] is [st.rerun()] raised in state [w'];
    [inr w'] is falling through to the chat column. *)
Definition sidebar (w : world) (e : event) : world + world :=
  let s := session w in
  match e with
  | ClickPersonality key =>
      if negb (persona_key_eqb key (personality s))
      then inl {| session := switch_to key s; calls := calls w |}
      else inr w
  | ClickAssess age_group concern mood =>
      let rec := rec_personality age_group concern in
      if negb (persona_key_eqb rec (personality s))
      then inl {| session := switch_to rec s; calls := calls w |}
      else inr w
  | ClickClear =>
      inl {| session := set_chat_session None (set_messages [] s);
             calls := calls w |}
  | ClickChangeKey =>
      inl {| session :=
               set_chat_session None
                 (set_messages []
                    (set_model None (set_api_key_valid false s)));
             calls := calls w |}
  | Render | ClickValidate _ | ChatInput _ => inr w
  end.

(** "Initialize chat session if needed": the greeting synthesis. *)
Definition greet_if_needed (s : session_state) : session_state :=
  let current_personality := PERSONALITIES (personality s) in
  match chat_session s with
  | None =>
      let '(ok, s1) := initialize_chat_session (personality s) s in
      if ok
      then append_message
             {| role := "assistant"; content := greeting current_personality |} s1
      else s1
  | Some _ => s
  end.

(** The reply of one chat turn and the call log afterwards. *)
Definition respond (s : session_state) (log : list call) (prompt : string)
  : string * list call :=
  let current_personality := PERSONALITIES (personality s) in
  if check_crisis_keywords lower prompt then (get_crisis_response, log)
  else
    match chat_session s with
    | None => (apology none_send_message_error, log)
    | Some cs =>
        let request := SendMessage cs (context_prompt current_personality prompt) in
        match provider log request with
        | Ok text => (text, (log ++ [request])%list)
        | Raise e => (apology e, (log ++ [request])%list)
        end
    end.

(** The right column: greeting synthesis, then the chat input. *)
Definition chat_column (w : world) (e : event) : outcome :=
  let s1 := greet_if_needed (session w) in
  match e with
  | ChatInput prompt =>
      if PyStr.truthy prompt then
        let s2 := append_message {| role := "user"; content := prompt |} s1 in
        let '(response, log) := respond s2 (calls w) prompt in
        Rerun {| session :=
                   append_message
                     {| role := "assistant"; content := response |} s2;
                 calls := log |}
      else Completed {| session := s1; calls := calls w |}
  | _ => Completed {| session := s1; calls := calls w |}
  end.

(** One execution of the script. *)
Definition script (w : world) (e : event) : outcome :=
  if negb (api_key_valid (session w)) then setup_page w e
  else
    match sidebar w e with
    | inl w' => Rerun w'
    | inr w' => chat_column w' e
    end.

(** One interaction: the run that receives the event and, when it ends in
    [st.rerun()], the run that follows with no widget fired. *)
Definition run (w : world) (e : event) : world :=
  match script w e with
  | Rerun w' => world_of (script w' Render)
  | Stopped w' | Completed w' => w'
  end.

(** The states a session can be in between two interactions. *)
Inductive reachable : world -> Prop :=
| reachable_initial : reachable initial_world
| reachable_run : forall w e, reachable w -> reachable (run w e).

End Script.

(** A provider stub that answers every call with the same text, and one that
    rejects every call. *)
Definition always_ok (text : string) : list call -> call -> reply :=
  fun _ _ => Ok text.

Definition always_raise (reason : string) : list call -> call -> reply :=
  fun _ _ => Raise reason.

(** A provider stub that accepts every key, fails the first chat call and
    answers the later ones. *)
Definition flaky_chat : list call -> call -> reply :=
  fun log c =>
    match c with
    | GenerateContent _ _ => Ok "Hello there"
    | SendMessage _ _ =>
        if (List.length log <=? 1)%nat then Raise "503 Service Unavailable"
        else Ok "I am listening."
    end.

(** The session right after a key has been accepted. *)
Definition unlocked_world : world :=
  run PyStr.ascii_lower (always_ok "ok") initial_world (ClickValidate "key").

(** ** Invariants of the session store *)

(** The handle is present only in an unlocked session. *)
Definition key_invariant (s : session_state) : Prop :=
  model s <> None -> api_key_valid s = true.

(** The greeting of persona [k] as an entry of the log. *)
Definition greeting_message (k : persona_key) : message :=
  {| role := "assistant"; content := greeting (PERSONALITIES k) |}.

(** What holds of the store between two interactions.  Locked: no handle, no
    chat and an empty log.  Unlocked: a handle, the chat started from it for
    the active persona, and a log that opens with that persona's greeting. *)
Definition consistent (s : session_state) : Prop :=
  if api_key_valid s then
    exists m rest,
      model s = Some m /\
      chat_session s =
        Some (start_chat m (seed_history (PERSONALITIES (personality s)))) /\
      messages s = greeting_message (personality s) :: rest
  else
    model s = None /\ chat_session s = None /\ messages s = [].

(** The words every substituted error reply opens with. *)
Definition apology_marker : string := "I apologize".

(** ** The interactions as a transition system *)

(** The probe of [validate_api_key] for a given key. *)
Definition probe_handle (api_key : string) : GenerativeModel :=
  {| model_name := "gemini-pro"; configured_key := api_key |}.

Definition probe_call (api_key : string) : call :=
  GenerateContent (probe_handle api_key) "Hello".

Definition user_message (prompt : string) : message :=
  {| role := "user"; content := prompt |}.

Definition assistant_message (text : string) : message :=
  {| role := "assistant"; content := text |}.

(** An unlocked store right after the greeting synthesis: handle [m], persona
    [k], the chat seeded for [k], and a log that holds the greeting only. *)
Definition started (m : GenerativeModel) (k : persona_key) : session_state :=
  {| messages := [greeting_message k];
     personality := k;
     chat_session := Some (start_chat m (seed_history (PERSONALITIES k)));
     api_key_valid := true;
     model := Some m |}.

(** A locked store that remembers persona [k] and nothing else. *)
Definition locked_session (k : persona_key) : session_state :=
  {| messages := [];
     personality := k;
     chat_session := None;
     api_key_valid := false;
     model := None |}.

(** The store after one chat turn answered with [text]. *)
Definition after_turn (prompt text : string) (s : session_state) : session_state :=
  append_message (assistant_message text)
    (append_message (user_message prompt) s).

(** A log tail made of complete exchanges: a user message, then the
    assistant's message, and so on. *)
Fixpoint exchanges (l : list message) : bool :=
  match l with
  | [] => true
  | u :: a :: rest =>
      String.eqb (role u) "user" && String.eqb (role a) "assistant"
      && exchanges rest
  | _ :: [] => false
  end.

Section Transitions.

Variable lower : string -> string.
Variable provider : list call -> call -> reply.

(** The eight ways an interaction changes the world. *)
Inductive step : world -> world -> Prop :=
| step_unlock : forall w api_key text,
    api_key_valid (session w) = false ->
    PyStr.truthy api_key = true ->
    provider (calls w) (probe_call api_key) = Ok text ->
    step w {| session := started (probe_handle api_key) (personality (session w));
              calls := (calls w ++ [probe_call api_key])%list |}
| step_reject : forall w api_key reason,
    api_key_valid (session w) = false ->
    PyStr.truthy api_key = true ->
    provider (calls w) (probe_call api_key) = Raise reason ->
    step w {| session := session w;
              calls := (calls w ++ [probe_call api_key])%list |}
| step_switch : forall w m k,
    api_key_valid (session w) = true ->
    model (session w) = Some m ->
    k <> personality (session w) ->
    step w {| session := started m k; calls := calls w |}
| step_clear : forall w m,
    api_key_valid (session w) = true ->
    model (session w) = Some m ->
    step w {| session := started m (personality (session w)); calls := calls w |}
| step_revoke : forall w,
    api_key_valid (session w) = true ->
    step w {| session := locked_session (personality (session w));
              calls := calls w |}
| step_crisis : forall w prompt,
    api_key_valid (session w) = true ->
    PyStr.truthy prompt = true ->
    check_crisis_keywords lower prompt = true ->
    step w {| session := after_turn prompt get_crisis_response (session w);
              calls := calls w |}
| step_reply : forall w prompt cs text,
    api_key_valid (session w) = true ->
    PyStr.truthy prompt = true ->
    check_crisis_keywords lower prompt = false ->
    chat_session (session w) = Some cs ->
    provider (calls w)
      (SendMessage cs
         (context_prompt (PERSONALITIES (personality (session w))) prompt))
      = Ok text ->
    step w {| session := after_turn prompt text (session w);
              calls :=
                (calls w ++
                 [SendMessage cs
                    (context_prompt (PERSONALITIES (personality (session w)))
                       prompt)])%list |}
| step_apology : forall w prompt cs reason,
    api_key_valid (session w) = true ->
    PyStr.truthy prompt = true ->
    check_crisis_keywords lower prompt = false ->
    chat_session (session w) = Some cs ->
    provider (calls w)
      (SendMessage cs
         (context_prompt (PERSONALITIES (personality (session w))) prompt))
      = Raise reason ->
    step w {| session := after_turn prompt (apology reason) (session w);
              calls :=
                (calls w ++
                 [SendMessage cs
                    (context_prompt (PERSONALITIES (personality (session w)))
                       prompt)])%list |}.

(** The provider accepted the probe of handle [m] somewhere in [log]. *)
Definition accepted (log : list call) (m : GenerativeModel) : Prop :=
  exists pre post text,
    log = (pre ++ GenerateContent m "Hello" :: post)%list /\
    provider pre (GenerateContent m "Hello") = Ok text.

(** What a logged call looks like: the fixed probe, or a persona-framed user
    message that is not empty and not flagged, sent to a chat seeded for the
    same persona. *)
Definition well_formed_call (c : call) : Prop :=
  match c with
  | GenerateContent m text => model_name m = "gemini-pro" /\ text = "Hello"
  | SendMessage cs payload =>
      exists m k prompt,
        cs = start_chat m (seed_history (PERSONALITIES k)) /\
        payload = context_prompt (PERSONALITIES k) prompt /\
        PyStr.truthy prompt = true /\
        check_crisis_keywords lower prompt = false
  end.

End Transitions.

(** ** The chat object and its turn history *)

Definition user_turn (text : string) : turn :=
  {| turn_role := "user"; parts := [text] |}.

Definition model_turn (text : string) : turn :=
  {| turn_role := "model"; parts := [text] |}.

(** Modelled from the spec: the provider's chat object, the "send message
    within chat history" call of section 6, which belongs to the
    google.generativeai library and is not among the sources.  What the
    endpoint receives for one message: the turn history of the chat so far,
    followed by the message as a user turn. *)
Definition request_contents (h : list turn) (payload : string) : list turn :=
  (h ++ [user_turn payload])%list.

(** Modelled from the spec: the same chat object, after one [send_message].
    A call that returns adds the message and the reply to the turn history
    of the chat; a call that raises leaves the history as it was. *)
Definition send_message_history (h : list turn) (payload : string) (r : reply)
  : list turn :=
  match r with
  | Ok text => (h ++ [user_turn payload; model_turn text])%list
  | Raise _ => h
  end.

(** The side of the chat object that the store does not show: the turn
    history of the chat held in [st.session_state.chat_session], and the
    contents of every chat request made so far. *)
Record chat_view : Type := mkChatView {
  live_history : list turn;
  sent : list (list turn)
}.

Definition initial_chat_view : chat_view :=
  {| live_history := []; sent := [] |}.

(** How the exchanges of the log and the turn history of the chat go
    together for persona [p]: a flagged message and its crisis message are
    in the log only, and so are a message whose call raised and its apology;
    an answered message is in the history as the payload that was sent,
    followed by the reply that the log shows. *)
Inductive conversation (lower : string -> string) (p : Persona.t)
  : list message -> list turn -> Prop :=
| conversation_start : conversation lower p [] []
| conversation_crisis : forall log h prompt,
    conversation lower p log h ->
    check_crisis_keywords lower prompt = true ->
    conversation lower p
      (log ++ [user_message prompt; assistant_message get_crisis_response])%list h
| conversation_answered : forall log h prompt text,
    conversation lower p log h ->
    check_crisis_keywords lower prompt = false ->
    conversation lower p
      (log ++ [user_message prompt; assistant_message text])%list
      (h ++ [user_turn (context_prompt p prompt); model_turn text])%list
| conversation_failed : forall log h prompt reason,
    conversation lower p log h ->
    check_crisis_keywords lower prompt = false ->
    conversation lower p
      (log ++ [user_message prompt; assistant_message (apology reason)])%list h.

(** The exchanges of a log as the turns an answered conversation leaves in
    the chat: each user message as the payload sent for it, each assistant
    message as the reply. *)
Fixpoint framed (p : Persona.t) (log : list message) : list turn :=
  match log with
  | u :: a :: rest =>
      user_turn (context_prompt p (content u)) :: model_turn (content a)
      :: framed p rest
  | _ => []
  end.

Section ChatObject.

Variable lower : string -> string.
Variable provider : list call -> call -> reply.

(** The greeting synthesis, seen from the chat object: when
    [initialize_chat_session] starts a chat, the new object holds the seeded
    history. *)
Definition greet_view (s : session_state) (v : chat_view) : chat_view :=
  match chat_session s with
  | None =>
      match model s with
      | None => v
      | Some _ =>
          {| live_history := seed_history (PERSONALITIES (personality s));
             sent := sent v |}
      end
  | Some _ => v
  end.

(** One chat turn, seen from the chat object: only the branch that calls
    [send_message] touches it. *)
Definition respond_view (s : session_state) (log : list call) (prompt : string)
    (v : chat_view) : chat_view :=
  let current_personality := PERSONALITIES (personality s) in
  if check_crisis_keywords lower prompt then v
  else
    match chat_session s with
    | None => v
    | Some cs =>
        let payload := context_prompt current_personality prompt in
        {| live_history :=
             send_message_history (live_history v) payload
               (provider log (SendMessage cs payload));
           sent := (sent v ++ [request_contents (live_history v) payload])%list |}
    end.

(** The right column, seen from the chat object. *)
Definition chat_column_view (w : world) (e : event) (v : chat_view) : chat_view :=
  let v1 := greet_view (session w) v in
  let s1 := greet_if_needed (session w) in
  match e with
  | ChatInput prompt =>
      if PyStr.truthy prompt then
        respond_view (append_message {| role := "user"; content := prompt |} s1)
          (calls w) prompt v1
      else v1
  | _ => v1
  end.

(** One execution of the script, seen from the chat object: the setup page
    and the left column never call it. *)
Definition script_view (w : world) (e : event) (v : chat_view) : chat_view :=
  if negb (api_key_valid (session w)) then v
  else
    match sidebar w e with
    | inl _ => v
    | inr w' => chat_column_view w' e v
    end.

(** One interaction, seen from the chat object. *)
Definition run_view (w : world) (e : event) (v : chat_view) : chat_view :=
  let v1 := script_view w e v in
  match script lower provider w e with
  | Rerun w' => script_view w' Render v1
  | Stopped _ | Completed _ => v1
  end.


End ChatObject.

(** A provider stub that answers every chat request with the number of the
    request. *)
Definition counting_chat : list call -> call -> reply :=
  fun log c =>
    match c with
    | GenerateContent _ _ => Ok "Hello there"
    | SendMessage _ _ =>
        match List.length log with
        | 1%nat => Ok "first reply"
        | 2%nat => Ok "second reply"
        | _ => Ok "later reply"
        end
    end.

(** * Properties *)

(** ** Strings *)

Module PyStrFacts.
Import PyStr.

Lemma append_assoc (a b c : string) : (a ++ b) ++ c = a ++ b ++ c.
Proof.
  induction a as [|x a IH]; simpl; [reflexivity | now rewrite IH].
Qed.

Lemma append_empty_r (a : string) : a ++ "" = a.
Proof.
  induction a as [|x a IH]; simpl; [reflexivity | now rewrite IH].
Qed.

Lemma length_append (a b : string) :
  String.length (a ++ b) = String.length a + String.length b.
Proof.
  induction a as [|x a IH]; simpl; [reflexivity | now rewrite IH].
Qed.

Lemma startswith_spec (p s : string) :
  startswith p s = true <-> exists rest, s = p ++ rest.
Proof.
  revert s; induction p as [|a p IH]; intros s; simpl.
  - split; [intros _; now exists s | reflexivity].
  - destruct s as [|b s].
    + split; [discriminate | intros [rest H]; discriminate].
    + rewrite andb_true_iff, Ascii.eqb_eq, IH. split.
      * intros [-> [rest ->]]. now exists rest.
      * intros [rest H]. injection H as -> ->. split; [reflexivity | now exists rest].
Qed.


(** The operator [in] finds exactly the substrings. *)
Lemma str_in_spec (sub s : string) : str_in sub s = true <-> Substring sub s.
Proof.
  unfold Substring. induction s as [|c s IH].
  - simpl. rewrite orb_false_r, startswith_spec. split.
    + intros [rest H]. now exists "", rest.
    + intros [[|x pre] [post H]]; [now exists post | discriminate].
  - simpl. rewrite orb_true_iff, IH, startswith_spec. split.
    + intros [[rest H] | [pre [post H]]].
      * now exists "", rest.
      * exists (String c pre), post. simpl. now rewrite H.
    + intros [[|x pre] [post H]].
      * left. now exists post.
      * right. simpl in H. injection H as _ H. now exists pre, post.
Qed.

Lemma str_in_false (sub s : string) : str_in sub s = false <-> ~ Substring sub s.
Proof.
  rewrite <- str_in_spec. destruct (str_in sub s); split; intros H;
    try reflexivity; try discriminate; easy.
Qed.






Lemma ascii_lower_append (a b : string) :
  ascii_lower (a ++ b) = ascii_lower a ++ ascii_lower b.
Proof.
  induction a as [|x a IH]; simpl; [reflexivity | now rewrite IH].
Qed.

End PyStrFacts.

(** ** The crisis filter *)

Lemma existsb_crisis (f : string -> bool) :
  existsb f crisis_keywords =
  f "suicide" || (f "kill myself" || (f "end it all" ||
    (f "hurt myself" || (f "die" || (f "worthless" || false))))).
Proof. reflexivity. Qed.

(** C1.  Whatever [str.lower] does, [check_crisis_keywords] answers true
    exactly when the lowercased message has one of the six phrases as a
    substring, and false when it has none of them. *)
Theorem check_crisis_keywords_iff (lower : string -> string) (message : string) :
  let hit phrase := PyStr.Substring phrase (lower message) in
  let any_hit :=
    hit "suicide" \/ hit "kill myself" \/ hit "end it all" \/
    hit "hurt myself" \/ hit "die" \/ hit "worthless" in
  (check_crisis_keywords lower message = true <-> any_hit) /\
  (~ any_hit -> check_crisis_keywords lower message = false).
Proof.
  cbv zeta.
  assert (E : check_crisis_keywords lower message = true <->
              PyStr.Substring "suicide" (lower message) \/
              PyStr.Substring "kill myself" (lower message) \/
              PyStr.Substring "end it all" (lower message) \/
              PyStr.Substring "hurt myself" (lower message) \/
              PyStr.Substring "die" (lower message) \/
              PyStr.Substring "worthless" (lower message)).
  { unfold check_crisis_keywords. rewrite existsb_crisis.
    rewrite !orb_true_iff, !PyStrFacts.str_in_spec. intuition discriminate. }
  split; [exact E |].
  intros N. destruct (check_crisis_keywords lower message); [| reflexivity].
  exfalso. apply N, E. reflexivity.
Qed.

(** A message that is flagged: the phrase sits inside a longer word and in
    upper case. *)
Lemma check_crisis_keywords_witness :
  check_crisis_keywords PyStr.ascii_lower "two solDIErs" = true.
Proof.
  apply (proj1 (check_crisis_keywords_iff PyStr.ascii_lower "two solDIErs")).
  do 4 right. left. exists "two sol", "rs". reflexivity.
Defined.

(** X15.  On ASCII text the match ignores case: a message holding any
    spelling of a phrase in mixed case is flagged. *)
Lemma check_crisis_keywords_ascii_case (keyword variant pre post : string) :
  In keyword crisis_keywords ->
  PyStr.ascii_lower variant = keyword ->
  check_crisis_keywords PyStr.ascii_lower (pre ++ variant ++ post) = true.
Proof.
  intros HIn Hlow. unfold check_crisis_keywords.
  apply existsb_exists. exists keyword. split; [exact HIn |].
  apply PyStrFacts.str_in_spec.
  exists (PyStr.ascii_lower pre), (PyStr.ascii_lower post).
  now rewrite !PyStrFacts.ascii_lower_append, Hlow.
Qed.

Example crisis_plant : check_crisis_keywords PyStr.ascii_lower "The plant will die" = true.
Proof. reflexivity. Qed.

Example crisis_none : check_crisis_keywords PyStr.ascii_lower "How do I talk to my teenager?" = false.
Proof. reflexivity. Qed.

Example crisis_upper : check_crisis_keywords PyStr.ascii_lower "I feel WORTHLESS today" = true.
Proof. reflexivity. Qed.

(** ** The recommendation *)

(** C3.  The cascade of "Get Recommendation" is the decision table read top
    to bottom with the first matching row winning, for every pair of strings
    and so for every pair of options of the form; the four rows of the
    specification's examples come out as stated. *)
Theorem rec_personality_first_match :
  (forall age_group concern,
     rec_personality age_group concern = DecisionTable.lookup age_group concern) /\
  rec_personality "13-17" "Mental health" = sage /\
  rec_personality "Parent/Guardian" "Parenting" = nurture /\
  rec_personality "Other" "Child development" = spark /\
  rec_personality "Other" "Family communication" = bridge.
Proof.
  split; [| repeat split].
  intros age_group concern.
  unfold rec_personality, DecisionTable.lookup, DecisionTable.table,
    DecisionTable.first_match, DecisionTable.one_of, DecisionTable.any,
    DecisionTable.otherwise, in_list; simpl.
  rewrite !orb_false_r.
  destruct (age_group =? "13-17"), (age_group =? "18-25"),
    (age_group =? "Parent/Guardian"), (concern =? "Mental health"),
    (concern =? "Academic stress"), (concern =? "Parenting"),
    (concern =? "Child development"); reflexivity.
Qed.

(** The cascade spelled out on the options of the form. *)
Lemma rec_personality_on_options (age_group concern : string) :
  In age_group age_group_options -> In concern concern_options ->
  rec_personality age_group concern =
    if (String.eqb age_group "13-17" || String.eqb age_group "18-25")
       && (String.eqb concern "Mental health" || String.eqb concern "Academic stress")
    then sage
    else if String.eqb age_group "Parent/Guardian"
            && (String.eqb concern "Parenting" || String.eqb concern "Child development")
    then nurture
    else if String.eqb concern "Child development" then spark
    else bridge.
Proof.
  intros Ha Hc. simpl in Ha, Hc.
  repeat (destruct Ha as [<- | Ha]; [| try contradiction]);
    repeat (destruct Hc as [<- | Hc]; [| try contradiction]); reflexivity.
Qed.

(** ** Runs of the script *)

Lemma persona_key_eqb_eq (a b : persona_key) :
  persona_key_eqb a b = true <-> a = b.
Proof. destruct a, b; simpl; split; intros H; congruence. Qed.

Lemma persona_key_eqb_refl (a : persona_key) : persona_key_eqb a a = true.
Proof. now apply persona_key_eqb_eq. Qed.

Lemma persona_key_eqb_neq (a b : persona_key) :
  persona_key_eqb a b = false <-> a <> b.
Proof.
  rewrite <- persona_key_eqb_eq. destruct (persona_key_eqb a b); split;
    intros H; try reflexivity; try discriminate; easy.
Qed.

Lemma world_eta (w : world) : {| session := session w; calls := calls w |} = w.
Proof. now destruct w. Qed.

Section ScriptFacts.

Variable lower : string -> string.
Variable provider : list call -> call -> reply.

(** Once a chat exists the greeting synthesis does nothing. *)
Lemma greet_if_needed_chat (s : session_state) (cs : ChatSession) :
  chat_session s = Some cs -> greet_if_needed s = s.
Proof. unfold greet_if_needed. now intros ->. Qed.

(** With a handle and no chat, it starts the chat and logs the greeting. *)
Lemma greet_if_needed_fresh (s : session_state) (m : GenerativeModel) :
  chat_session s = None -> model s = Some m ->
  greet_if_needed s =
    append_message (greeting_message (personality s))
      (set_chat_session
         (Some (start_chat m (seed_history (PERSONALITIES (personality s))))) s).
Proof.
  unfold greet_if_needed, initialize_chat_session. now intros -> ->.
Qed.

(** The greeting synthesis leaves the key, the handle and the persona alone. *)
Lemma greet_if_needed_frame (s : session_state) :
  api_key_valid (greet_if_needed s) = api_key_valid s /\
  model (greet_if_needed s) = model s /\
  personality (greet_if_needed s) = personality s.
Proof.
  unfold greet_if_needed, initialize_chat_session.
  destruct (chat_session s); [| destruct (model s) eqn:E]; simpl;
    repeat split; exact E.
Qed.

(** A run with no widget fired never asks for another run. *)
Lemma script_render_settles (w : world) :
  script lower provider w Render = Stopped w \/
  script lower provider w Render =
    Completed {| session := greet_if_needed (session w); calls := calls w |}.
Proof.
  unfold script. destruct (api_key_valid (session w)); simpl; auto.
Qed.

(** The run that follows [st.rerun()] in an unlocked session. *)
Lemma render_unlocked (w : world) :
  api_key_valid (session w) = true ->
  world_of (script lower provider w Render) =
    {| session := greet_if_needed (session w); calls := calls w |}.
Proof. unfold script. now intros ->. Qed.

Lemma render_locked (w : world) :
  api_key_valid (session w) = false -> world_of (script lower provider w Render) = w.
Proof. unfold script. now intros ->. Qed.

(** An accepted key: the session is unlocked and greeted at once. *)
Lemma run_validate_ok (w : world) (api_key text : string) :
  api_key_valid (session w) = false ->
  PyStr.truthy api_key = true ->
  provider (calls w)
    (GenerateContent {| model_name := "gemini-pro"; configured_key := api_key |}
       "Hello") = Ok text ->
  run lower provider w (ClickValidate api_key) =
    {| session :=
         greet_if_needed
           (set_model
              (Some {| model_name := "gemini-pro"; configured_key := api_key |})
              (set_api_key_valid true (session w)));
       calls :=
         (calls w ++
          [GenerateContent
             {| model_name := "gemini-pro"; configured_key := api_key |} "Hello"])%list |}.
Proof.
  intros L T P. unfold run, script, setup_page, validate_api_key.
  rewrite L, T, P. reflexivity.
Qed.

(** A rejected key: only the call log grows. *)
Lemma run_validate_raise (w : world) (api_key reason : string) :
  api_key_valid (session w) = false ->
  PyStr.truthy api_key = true ->
  provider (calls w)
    (GenerateContent {| model_name := "gemini-pro"; configured_key := api_key |}
       "Hello") = Raise reason ->
  run lower provider w (ClickValidate api_key) =
    {| session := session w;
       calls :=
         (calls w ++
          [GenerateContent
             {| model_name := "gemini-pro"; configured_key := api_key |} "Hello"])%list |}.
Proof.
  intros L T P. unfold run, script, setup_page, validate_api_key.
  rewrite L, T, P. reflexivity.
Qed.

(** In a locked session every other widget is absent. *)
Lemma run_locked_other (w : world) (e : event) :
  api_key_valid (session w) = false ->
  (forall k, e = ClickValidate k -> PyStr.truthy k = false) ->
  run lower provider w e = w.
Proof.
  intros L N. unfold run, script, setup_page. rewrite L. simpl.
  destruct e; try reflexivity. now rewrite (N api_key eq_refl).
Qed.

(** A switch to another persona, by button or by recommendation. *)
Lemma run_switch (w : world) (e : event) (k : persona_key) :
  api_key_valid (session w) = true ->
  sidebar w e = inl {| session := switch_to k (session w); calls := calls w |} ->
  run lower provider w e =
    {| session := greet_if_needed (switch_to k (session w)); calls := calls w |}.
Proof.
  intros V S. unfold run, script. rewrite V, S. simpl.
  unfold script. simpl. now rewrite V.
Qed.

(** Any run of an unlocked session that falls through the left column and
    receives no chat input. *)
Lemma run_fall_through (w : world) (e : event) :
  api_key_valid (session w) = true ->
  sidebar w e = inr w ->
  (forall p, e = ChatInput p -> PyStr.truthy p = false) ->
  run lower provider w e =
    {| session := greet_if_needed (session w); calls := calls w |}.
Proof.
  intros V S N. unfold run, script. rewrite V, S. simpl.
  unfold chat_column. destruct e; try reflexivity.
  now rewrite (N prompt eq_refl).
Qed.

(** A chat turn. *)
Lemma run_chat (w : world) (prompt : string) :
  api_key_valid (session w) = true ->
  PyStr.truthy prompt = true ->
  let s2 :=
    append_message {| role := "user"; content := prompt |}
      (greet_if_needed (session w)) in
  let answer := respond lower provider s2 (calls w) prompt in
  run lower provider w (ChatInput prompt) =
    {| session :=
         greet_if_needed
           (append_message {| role := "assistant"; content := fst answer |} s2);
       calls := snd answer |}.
Proof.
  intros V T. cbv zeta. unfold run, script. rewrite V. simpl.
  unfold chat_column. rewrite T.
  destruct (respond lower provider _ (calls w) prompt) as [response log].
  simpl. unfold script. simpl.
  rewrite (proj1 (greet_if_needed_frame (session w))), V. reflexivity.
Qed.

(** Any run of an unlocked session whose left column raises [st.rerun()]. *)
Lemma run_sidebar_rerun (w w' : world) (e : event) :
  api_key_valid (session w) = true ->
  sidebar w e = inl w' ->
  run lower provider w e = world_of (script lower provider w' Render).
Proof.
  intros V S. unfold run, script at 1. now rewrite V, S.
Qed.

(** ** The store between interactions *)

Lemma consistent_locked (s : session_state) :
  api_key_valid s = false ->
  consistent s <-> model s = None /\ chat_session s = None /\ messages s = [].
Proof. unfold consistent. now intros ->. Qed.

Lemma consistent_unlocked (s : session_state) :
  api_key_valid s = true ->
  consistent s <->
  exists m rest,
    model s = Some m /\
    chat_session s =
      Some (start_chat m (seed_history (PERSONALITIES (personality s)))) /\
    messages s = greeting_message (personality s) :: rest.
Proof. unfold consistent. now intros ->. Qed.

(** A store with a handle, no chat and an empty log is consistent once the
    greeting synthesis has run on it. *)
Lemma consistent_greeted (s : session_state) (m : GenerativeModel) :
  api_key_valid s = true -> model s = Some m ->
  chat_session s = None -> messages s = [] ->
  consistent (greet_if_needed s).
Proof.
  intros V M C L. rewrite (greet_if_needed_fresh s m C M).
  apply consistent_unlocked; [exact V |].
  exists m, []. simpl. rewrite M, L. repeat split.
Qed.

(** Every interaction keeps the store consistent. *)
Lemma consistent_run (w : world) (e : event) :
  consistent (session w) -> consistent (session (run lower provider w e)).
Proof.
  intros H. destruct (api_key_valid (session w)) eqn:V.
  - (* unlocked *)
    pose proof (proj1 (consistent_unlocked _ V) H) as [m [rest [M [C L]]]].
    assert (Keep : consistent
              (session {| session := greet_if_needed (session w); calls := calls w |})).
    { simpl. now rewrite (greet_if_needed_chat _ _ C). }
    assert (Switch : forall k,
              consistent (greet_if_needed (switch_to k (session w)))).
    { intros k. now apply (consistent_greeted _ m). }
    destruct e.
    + rewrite run_fall_through; [exact Keep | exact V | reflexivity | discriminate].
    + rewrite run_fall_through; [exact Keep | exact V | reflexivity | discriminate].
    + destruct (persona_key_eqb key (personality (session w))) eqn:E.
      * rewrite run_fall_through; [exact Keep | exact V | | discriminate].
        simpl. now rewrite E.
      * rewrite (run_switch w _ key V); [apply Switch |]. simpl. now rewrite E.
    + destruct (persona_key_eqb (rec_personality age_group concern)
                  (personality (session w))) eqn:E.
      * rewrite run_fall_through; [exact Keep | exact V | | discriminate].
        simpl. now rewrite E.
      * rewrite (run_switch w _ (rec_personality age_group concern) V);
          [apply Switch |]. simpl. now rewrite E.
    + erewrite run_sidebar_rerun; [| exact V | reflexivity].
      rewrite render_unlocked; [| exact V]. simpl.
      now apply (consistent_greeted _ m).
    + erewrite run_sidebar_rerun; [| exact V | reflexivity].
      rewrite render_locked; [| reflexivity].
      apply consistent_locked; [reflexivity |]. repeat split.
    + destruct (PyStr.truthy prompt) eqn:T.
      * rewrite (run_chat w prompt V T). simpl.
        rewrite (greet_if_needed_chat _ _ C).
        erewrite greet_if_needed_chat; [| simpl; exact C].
        apply consistent_unlocked; [exact V |].
        exists m. eexists. simpl. rewrite L. simpl. repeat split; eauto.
      * rewrite run_fall_through; [exact Keep | exact V | reflexivity |].
        intros p [= <-]. exact T.
  - (* locked *)
    pose proof (proj1 (consistent_locked _ V) H) as [M [C L]].
    destruct e; try (rewrite run_locked_other; [exact H | exact V | discriminate]).
    destruct (PyStr.truthy api_key) eqn:T.
    + destruct (provider (calls w)
                  (GenerateContent
                     {| model_name := "gemini-pro"; configured_key := api_key |}
                     "Hello")) as [text | reason] eqn:P.
      * rewrite (run_validate_ok w api_key text V T P). simpl.
        now apply (consistent_greeted _ {| model_name := "gemini-pro";
                                           configured_key := api_key |}).
      * rewrite (run_validate_raise w api_key reason V T P). exact H.
    + rewrite run_locked_other; [exact H | exact V |].
      intros k [= <-]. exact T.
Qed.

Lemma consistent_initial : consistent (session initial_world).
Proof. simpl. repeat split. Qed.

Lemma reachable_consistent (w : world) :
  reachable lower provider w -> consistent (session w).
Proof.
  induction 1 as [| w e _ IH]; [exact consistent_initial | now apply consistent_run].
Qed.

(** In a reachable unlocked session the chat is already started, so the
    greeting synthesis is idle. *)
Lemma reachable_greeted (w : world) :
  reachable lower provider w -> api_key_valid (session w) = true ->
  greet_if_needed (session w) = session w.
Proof.
  intros R V. apply reachable_consistent in R.
  apply (consistent_unlocked _ V) in R. destruct R as [m [rest [_ [C _]]]].
  now apply (greet_if_needed_chat _ _ C).
Qed.

End ScriptFacts.

(** The greeting synthesis is idle on a store it has already seen. *)
Lemma greet_if_needed_idle (s : session_state) :
  chat_session s <> None \/ model s = None -> greet_if_needed s = s.
Proof.
  unfold greet_if_needed, initialize_chat_session. intros [C | M].
  - destruct (chat_session s); [reflexivity | now elim C].
  - rewrite M. now destruct (chat_session s).
Qed.

Lemma greet_if_needed_settles (s : session_state) :
  chat_session (greet_if_needed s) <> None \/ model (greet_if_needed s) = None.
Proof.
  unfold greet_if_needed, initialize_chat_session.
  destruct (chat_session s) eqn:C.
  - left. rewrite C. discriminate.
  - destruct (model s) eqn:M; simpl; [left; discriminate | now right].
Qed.

Lemma greet_if_needed_after_append (m : message) (s : session_state) :
  greet_if_needed (append_message m (greet_if_needed s)) =
  append_message m (greet_if_needed s).
Proof. apply greet_if_needed_idle. simpl. apply greet_if_needed_settles. Qed.

Lemma greet_if_needed_after_append2 (m1 m2 : message) (s : session_state) :
  greet_if_needed (append_message m2 (append_message m1 (greet_if_needed s))) =
  append_message m2 (append_message m1 (greet_if_needed s)).
Proof. apply greet_if_needed_idle. simpl. apply greet_if_needed_settles. Qed.

Lemma unlocked_world_reachable :
  reachable PyStr.ascii_lower (always_ok "ok") unlocked_world.
Proof. apply reachable_run, reachable_initial. Qed.

(** ** The chat turn *)

(** C2.  A flagged message makes no provider call at all during its
    interaction, and the log grows by the user's message followed by the
    static crisis message as the assistant turn. *)
Theorem flagged_turn_skips_provider
    (lower : string -> string) (provider : list call -> call -> reply)
    (w : world) (prompt : string) :
  api_key_valid (session w) = true ->
  PyStr.truthy prompt = true ->
  check_crisis_keywords lower prompt = true ->
  calls (run lower provider w (ChatInput prompt)) = calls w /\
  messages (session (run lower provider w (ChatInput prompt))) =
    (messages (greet_if_needed (session w)) ++
     [ {| role := "user"; content := prompt |};
       {| role := "assistant"; content := get_crisis_response |} ])%list.
Proof.
  intros V T F. rewrite (run_chat lower provider w prompt V T).
  unfold respond. rewrite F. simpl fst; simpl snd. split; [reflexivity |].
  cbn [session]. rewrite greet_if_needed_after_append2. simpl.
  now rewrite <- app_assoc.
Qed.

Lemma flagged_turn_skips_provider_witness :
  calls (run PyStr.ascii_lower (always_ok "ok") unlocked_world
           (ChatInput "I want to end it all")) = calls unlocked_world /\
  messages (session (run PyStr.ascii_lower (always_ok "ok") unlocked_world
                       (ChatInput "I want to end it all"))) =
    (messages (greet_if_needed (session unlocked_world)) ++
     [ {| role := "user"; content := "I want to end it all" |};
       {| role := "assistant"; content := get_crisis_response |} ])%list.
Proof.
  apply (flagged_turn_skips_provider PyStr.ascii_lower (always_ok "ok")
           unlocked_world "I want to end it all"); reflexivity.
Defined.

Lemma apology_has_marker (reason : string) :
  PyStr.Substring apology_marker (apology reason).
Proof.
  exists "", (", but I encountered an error: " ++ reason ++ ". Please try again.").
  reflexivity.
Qed.

(** C4.  When the chat call of a normal turn raises, the log grows by the
    user's message, as typed, followed by exactly one assistant message, the
    apology; the apology carries its marker, and nothing else of the session
    changes, so the next turn proceeds as usual. *)
Theorem provider_error_turn
    (lower : string -> string) (provider : list call -> call -> reply)
    (w : world) (prompt reason : string) (cs : ChatSession) :
  api_key_valid (session w) = true ->
  chat_session (session w) = Some cs ->
  PyStr.truthy prompt = true ->
  check_crisis_keywords lower prompt = false ->
  provider (calls w)
    (SendMessage cs
       (context_prompt (PERSONALITIES (personality (session w))) prompt))
    = Raise reason ->
  let w' := run lower provider w (ChatInput prompt) in
  messages (session w') =
    (messages (session w) ++
     [ {| role := "user"; content := prompt |};
       {| role := "assistant"; content := apology reason |} ])%list /\
  PyStr.Substring apology_marker (apology reason) /\
  personality (session w') = personality (session w) /\
  chat_session (session w') = Some cs /\
  api_key_valid (session w') = true /\
  model (session w') = model (session w) /\
  calls w' =
    (calls w ++
     [SendMessage cs
        (context_prompt (PERSONALITIES (personality (session w))) prompt)])%list.
Proof.
  intros V C T F P. cbv zeta.
  rewrite (run_chat lower provider w prompt V T).
  rewrite (greet_if_needed_chat (session w) cs C).
  unfold respond. rewrite F. cbn [chat_session append_message set_messages personality].
  rewrite C, P. cbn [fst snd session calls].
  rewrite (greet_if_needed_chat _ cs) by exact C.
  cbn. rewrite <- app_assoc. repeat split; auto.
  apply apology_has_marker.
Qed.

Lemma provider_error_turn_witness :
  let provider := always_raise "503 Service Unavailable" in
  let w' := run PyStr.ascii_lower provider unlocked_world (ChatInput "hello") in
  messages (session w') =
    (messages (session unlocked_world) ++
     [ {| role := "user"; content := "hello" |};
       {| role := "assistant";
          content := apology "503 Service Unavailable" |} ])%list /\
  api_key_valid (session w') = true.
Proof.
  pose proof
    (provider_error_turn PyStr.ascii_lower
       (always_raise "503 Service Unavailable") unlocked_world "hello"
       "503 Service Unavailable"
       (start_chat {| model_name := "gemini-pro"; configured_key := "key" |}
          (seed_history (PERSONALITIES sage)))
       eq_refl eq_refl eq_refl eq_refl eq_refl) as H.
  cbv zeta in *. split; [apply H | apply H].
Defined.

(** After a failed turn the next message is served as usual. *)
Example recovery_after_error :
  let w0 := run PyStr.ascii_lower flaky_chat initial_world (ClickValidate "key") in
  let w1 := run PyStr.ascii_lower flaky_chat w0 (ChatInput "hello") in
  let w2 := run PyStr.ascii_lower flaky_chat w1 (ChatInput "are you there?") in
  map content (messages (session w2)) =
    [ greeting (PERSONALITIES sage);
      "hello";
      apology "503 Service Unavailable";
      "are you there?";
      "I am listening." ] /\
  List.length (calls w2) = 3.
Proof. split; reflexivity. Qed.

(** ** The credential gate *)

(** C5.  [validate_api_key] makes one probe call whatever the key is, and
    its result is decided by the provider's answer alone: the handle on
    success, the provider's reason on failure.  Submitting a key in a locked
    session adds exactly that probe to the call log; an accepted key stores
    the handle and unlocks the session, a rejected one leaves the store as it
    was, locked and without a handle. *)
Theorem validate_probes_once
    (lower : string -> string) (provider : list call -> call -> reply) :
  (forall api_key log,
     let m := {| model_name := "gemini-pro"; configured_key := api_key |} in
     snd (validate_api_key provider api_key log) =
       (log ++ [GenerateContent m "Hello"])%list /\
     fst (validate_api_key provider api_key log) =
       match provider log (GenerateContent m "Hello") with
       | Ok _ => inl m
       | Raise reason => inr reason
       end) /\
  (forall w api_key,
     api_key_valid (session w) = false ->
     model (session w) = None ->
     PyStr.truthy api_key = true ->
     let m := {| model_name := "gemini-pro"; configured_key := api_key |} in
     let w' := run lower provider w (ClickValidate api_key) in
     calls w' = (calls w ++ [GenerateContent m "Hello"])%list /\
     match provider (calls w) (GenerateContent m "Hello") with
     | Ok _ => api_key_valid (session w') = true /\ model (session w') = Some m
     | Raise _ =>
         api_key_valid (session w') = false /\ model (session w') = None /\
         session w' = session w
     end).
Proof.
  split.
  - intros api_key log. cbv zeta. unfold validate_api_key.
    destruct (provider log _); split; reflexivity.
  - intros w api_key L M T. cbv zeta.
    destruct (provider (calls w)
                (GenerateContent
                   {| model_name := "gemini-pro"; configured_key := api_key |}
                   "Hello")) as [text | reason] eqn:P.
    + rewrite (run_validate_ok lower provider w api_key text L T P).
      cbn [calls session]. split; [reflexivity |].
      destruct (greet_if_needed_frame
                  (set_model
                     (Some {| model_name := "gemini-pro";
                              configured_key := api_key |})
                     (set_api_key_valid true (session w)))) as [Hv [Hm _]].
      rewrite Hv, Hm. split; reflexivity.
    + rewrite (run_validate_raise lower provider w api_key reason L T P).
      cbn [calls session]. repeat split; assumption.
Qed.

Lemma validate_probes_once_witness :
  let m := {| model_name := "gemini-pro"; configured_key := "not-a-key" |} in
  let w' :=
    run PyStr.ascii_lower (always_raise "400 API key not valid") initial_world
      (ClickValidate "not-a-key") in
  calls w' = [GenerateContent m "Hello"] /\
  api_key_valid (session w') = false /\ model (session w') = None /\
  session w' = session initial_world.
Proof.
  exact (proj2 (validate_probes_once PyStr.ascii_lower
                  (always_raise "400 API key not valid"))
           initial_world "not-a-key" eq_refl eq_refl eq_refl).
Defined.

(** ** Persona selection *)

(** C6.  In any unlocked session reached by the script, a click on the button
    of another persona, or a recommendation that resolves to another persona,
    empties the log and drops the chat before the script is run again, and
    after that run the log holds exactly the new persona's greeting. *)
Theorem persona_switch_restarts
    (lower : string -> string) (provider : list call -> call -> reply)
    (w : world) (e : event) (key : persona_key) :
  reachable lower provider w ->
  api_key_valid (session w) = true ->
  key <> personality (session w) ->
  e = ClickPersonality key \/
  (exists age_group concern mood,
     e = ClickAssess age_group concern mood /\
     rec_personality age_group concern = key) ->
  (exists w1,
     script lower provider w e = Rerun w1 /\
     messages (session w1) = [] /\
     chat_session (session w1) = None /\
     personality (session w1) = key) /\
  messages (session (run lower provider w e)) = [greeting_message key] /\
  personality (session (run lower provider w e)) = key /\
  chat_session (session (run lower provider w e)) <> None.
Proof.
  intros R V N E.
  assert (S : sidebar w e =
              inl {| session := switch_to key (session w); calls := calls w |}).
  { apply persona_key_eqb_neq in N.
    destruct E as [-> | [a [c [m [-> <-]]]]]; simpl; now rewrite N. }
  split.
  - exists {| session := switch_to key (session w); calls := calls w |}.
    unfold script. rewrite V, S. repeat split.
  - rewrite (run_switch lower provider w e key V S). cbn [session].
    pose proof (reachable_consistent lower provider w R) as H.
    apply (consistent_unlocked _ V) in H. destruct H as [m [rest [M _]]].
    rewrite (greet_if_needed_fresh (switch_to key (session w)) m);
      [| reflexivity | exact M].
    simpl. repeat split. discriminate.
Qed.

Lemma persona_switch_restarts_witness :
  messages (session (run PyStr.ascii_lower (always_ok "ok") unlocked_world
                       (ClickPersonality nurture))) =
    [greeting_message nurture].
Proof.
  apply (persona_switch_restarts PyStr.ascii_lower (always_ok "ok")
           unlocked_world (ClickPersonality nurture) nurture
           unlocked_world_reachable eq_refl).
  - discriminate.
  - left. reflexivity.
Defined.

(** C9.  In any session reached by the script, a click on the button of the
    persona that is already active changes nothing at all, and neither does a
    recommendation that resolves to the active persona: log, chat, persona
    and call log stay as they were. *)
Theorem reselect_active_persona_noop
    (lower : string -> string) (provider : list call -> call -> reply)
    (w : world) :
  reachable lower provider w ->
  run lower provider w (ClickPersonality (personality (session w))) = w /\
  (forall age_group concern mood,
     rec_personality age_group concern = personality (session w) ->
     run lower provider w (ClickAssess age_group concern mood) = w).
Proof.
  intros R. destruct (api_key_valid (session w)) eqn:V.
  - split; [| intros a c m E];
      (rewrite run_fall_through;
       [ rewrite (reachable_greeted lower provider w R V); apply world_eta
       | exact V
       | simpl; try rewrite E; now rewrite persona_key_eqb_refl
       | discriminate ]).
  - split; [| intros a c m E];
      (rewrite run_locked_other; [reflexivity | exact V | discriminate]).
Qed.

Lemma reselect_active_persona_noop_witness :
  run PyStr.ascii_lower (always_ok "ok") unlocked_world (ClickPersonality sage)
  = unlocked_world.
Proof.
  exact (proj1 (reselect_active_persona_noop PyStr.ascii_lower (always_ok "ok")
                  unlocked_world unlocked_world_reachable)).
Defined.

(** C10.  The mood slider has no influence: two recommendation clicks that
    differ only in the mood value end in the same world, and so pick the same
    persona. *)
Theorem mood_noninterference
    (lower : string -> string) (provider : list call -> call -> reply)
    (w : world) (age_group concern : string) (m1 m2 : Z) :
  run lower provider w (ClickAssess age_group concern m1) =
  run lower provider w (ClickAssess age_group concern m2).
Proof. reflexivity. Qed.

(** ** The request of a normal turn *)



(** ** The key invariant *)

Lemma key_invariant_frame (s s' : session_state) :
  api_key_valid s' = api_key_valid s -> model s' = model s ->
  key_invariant s -> key_invariant s'.
Proof. unfold key_invariant. now intros -> ->. Qed.

Lemma key_invariant_greet (s : session_state) :
  key_invariant s -> key_invariant (greet_if_needed s).
Proof.
  destruct (greet_if_needed_frame s) as [V [M _]].
  now apply key_invariant_frame.
Qed.

(** C8.  The handle is present only when the key is marked valid: this holds
    of the initial store, and every interaction (an accepted or a rejected
    key, a persona switch by button or by recommendation, clear chat, change
    key, a chat turn, a plain render) keeps it, whatever the provider
    answers. *)
Theorem key_invariant_preserved :
  key_invariant initial_session /\
  (forall (lower : string -> string) (provider : list call -> call -> reply)
          (w : world) (e : event),
     key_invariant (session w) ->
     key_invariant (session (run lower provider w e))).
Proof.
  split; [intros H; now elim H |].
  intros lower provider w e H.
  destruct (api_key_valid (session w)) eqn:V.
  - assert (Keep : key_invariant
              (session {| session := greet_if_needed (session w);
                          calls := calls w |})).
    { now apply key_invariant_greet. }
    assert (Switch : forall k,
              key_invariant (greet_if_needed (switch_to k (session w)))).
    { intros k. apply key_invariant_greet.
      now apply (key_invariant_frame (session w)). }
    destruct e.
    + rewrite run_fall_through; [exact Keep | exact V | reflexivity | discriminate].
    + rewrite run_fall_through; [exact Keep | exact V | reflexivity | discriminate].
    + destruct (persona_key_eqb key (personality (session w))) eqn:E.
      * rewrite run_fall_through; [exact Keep | exact V | | discriminate].
        simpl. now rewrite E.
      * rewrite (run_switch lower provider w _ key V); [apply Switch |].
        simpl. now rewrite E.
    + destruct (persona_key_eqb (rec_personality age_group concern)
                  (personality (session w))) eqn:E.
      * rewrite run_fall_through; [exact Keep | exact V | | discriminate].
        simpl. now rewrite E.
      * rewrite (run_switch lower provider w _
                   (rec_personality age_group concern) V); [apply Switch |].
        simpl. now rewrite E.
    + erewrite run_sidebar_rerun; [| exact V | reflexivity].
      rewrite render_unlocked; [| exact V]. cbn [session].
      apply key_invariant_greet. now apply (key_invariant_frame (session w)).
    + erewrite run_sidebar_rerun; [| exact V | reflexivity].
      rewrite render_locked; [| reflexivity].
      intros M. now elim M.
    + destruct (PyStr.truthy prompt) eqn:T.
      * rewrite (run_chat lower provider w prompt V T). cbn [session].
        apply key_invariant_greet.
        apply (key_invariant_frame (greet_if_needed (session w)));
          [reflexivity | reflexivity | now apply key_invariant_greet].
      * rewrite run_fall_through; [exact Keep | exact V | reflexivity |].
        intros p [= <-]. exact T.
  - destruct e; try (rewrite run_locked_other; [exact H | exact V | discriminate]).
    destruct (PyStr.truthy api_key) eqn:T.
    + destruct (provider (calls w)
                  (GenerateContent
                     {| model_name := "gemini-pro"; configured_key := api_key |}
                     "Hello")) as [text | reason] eqn:P.
      * rewrite (run_validate_ok lower provider w api_key text V T P).
        cbn [session]. apply key_invariant_greet. intros _. reflexivity.
      * rewrite (run_validate_raise lower provider w api_key reason V T P).
        exact H.
    + rewrite run_locked_other; [exact H | exact V |].
      intros k [= <-]. exact T.
Qed.

Lemma key_invariant_preserved_witness :
  key_invariant (session initial_world) /\
  key_invariant
    (session (run PyStr.ascii_lower (always_ok "ok") initial_world
                (ClickValidate "key"))).
Proof.
  assert (H : key_invariant (session initial_world)).
  { intros M. simpl in M. congruence. }
  split; [exact H |].
  exact (proj2 key_invariant_preserved PyStr.ascii_lower (always_ok "ok")
           initial_world (ClickValidate "key") H).
Defined.

(** * Further properties of the script *)

(** ** Interactions as transitions *)

Lemma truthy_false_empty (s : string) : PyStr.truthy s = false <-> s = "".
Proof. destruct s; simpl; split; intros H; try reflexivity; discriminate. Qed.

Lemma session_eta (s : session_state) :
  {| messages := messages s;
     personality := personality s;
     chat_session := chat_session s;
     api_key_valid := api_key_valid s;
     model := model s |} = s.
Proof. now destruct s. Qed.

(** The greeting synthesis on an unlocked store with a handle, no chat and an
    empty log gives the freshly started store. *)
Lemma greet_if_needed_started (s : session_state) (m : GenerativeModel) :
  api_key_valid s = true -> model s = Some m ->
  chat_session s = None -> messages s = [] ->
  greet_if_needed s = started m (personality s).
Proof.
  intros V M C L. rewrite (greet_if_needed_fresh s m C M).
  unfold started, append_message, set_messages, set_chat_session. simpl.
  now rewrite V, M, L.
Qed.

Section TransitionFacts.

Variable lower : string -> string.
Variable provider : list call -> call -> reply.

(** On a consistent store an interaction changes nothing or is one of the
    eight transitions. *)
Lemma run_step_cases (w : world) (e : event) :
  consistent (session w) ->
  run lower provider w e = w \/ step lower provider w (run lower provider w e).
Proof.
  intros H. destruct (api_key_valid (session w)) eqn:V.
  - pose proof (proj1 (consistent_unlocked _ V) H) as [m [rest [M [C L]]]].
    assert (Keep : {| session := greet_if_needed (session w); calls := calls w |}
                   = w).
    { rewrite (greet_if_needed_chat _ _ C). apply world_eta. }
    assert (Switch : forall k,
              greet_if_needed (switch_to k (session w)) = started m k).
    { intros k. now apply (greet_if_needed_started (switch_to k (session w)) m). }
    destruct e.
    + left. rewrite run_fall_through; [exact Keep | exact V | reflexivity | discriminate].
    + left. rewrite run_fall_through; [exact Keep | exact V | reflexivity | discriminate].
    + destruct (persona_key_eqb key (personality (session w))) eqn:E.
      * left. rewrite run_fall_through; [exact Keep | exact V | | discriminate].
        simpl. now rewrite E.
      * right. rewrite (run_switch lower provider w _ key V);
          [| simpl; now rewrite E].
        rewrite Switch. apply step_switch; [exact V | exact M |].
        now apply persona_key_eqb_neq.
    + destruct (persona_key_eqb (rec_personality age_group concern)
                  (personality (session w))) eqn:E.
      * left. rewrite run_fall_through; [exact Keep | exact V | | discriminate].
        simpl. now rewrite E.
      * right. rewrite (run_switch lower provider w _
                          (rec_personality age_group concern) V);
          [| simpl; now rewrite E].
        rewrite Switch. apply step_switch; [exact V | exact M |].
        now apply persona_key_eqb_neq.
    + right. erewrite run_sidebar_rerun; [| exact V | reflexivity].
      rewrite render_unlocked; [| exact V]. cbn [session calls].
      rewrite (greet_if_needed_started _ m); [| exact V | exact M | reflexivity ..].
      now apply step_clear.
    + right. erewrite run_sidebar_rerun; [| exact V | reflexivity].
      rewrite render_locked; [| reflexivity].
      now apply step_revoke.
    + destruct (PyStr.truthy prompt) eqn:T.
      * right. rewrite (run_chat lower provider w prompt V T).
        rewrite (greet_if_needed_chat _ _ C).
        erewrite greet_if_needed_chat; [| simpl; exact C].
        unfold respond.
        destruct (check_crisis_keywords lower prompt) eqn:F.
        -- now apply step_crisis.
        -- cbn [chat_session append_message set_messages personality].
           rewrite C.
           destruct (provider (calls w) _) as [text | reason] eqn:P.
           ++ now apply (step_reply lower provider w prompt _ text).
           ++ now apply (step_apology lower provider w prompt _ reason).
      * left. rewrite run_fall_through; [exact Keep | exact V | reflexivity |].
        intros p [= <-]. exact T.
  - pose proof (proj1 (consistent_locked _ V) H) as [M [C L]].
    destruct e; try (left; rewrite run_locked_other; [reflexivity | exact V | discriminate]).
    destruct (PyStr.truthy api_key) eqn:T.
    + right.
      destruct (provider (calls w) (probe_call api_key)) as [text | reason] eqn:P.
      * rewrite (run_validate_ok lower provider w api_key text V T P).
        rewrite (greet_if_needed_started _ (probe_handle api_key));
          [| reflexivity | reflexivity | exact C | exact L].
        now apply (step_unlock lower provider w api_key text).
      * rewrite (run_validate_raise lower provider w api_key reason V T P).
        now apply (step_reject lower provider w api_key reason).
    + left. rewrite run_locked_other; [reflexivity | exact V |].
      intros k [= <-]. exact T.
Qed.

End TransitionFacts.

(** ** Invariants of the reachable worlds *)

Lemma exchanges_append_turn (u a : message) (l : list message) :
  role u = "user" -> role a = "assistant" ->
  exchanges l = true -> exchanges (l ++ [u; a]) = true.
Proof.
  intros Hu Ha.
  assert (G : forall l,
             (exchanges l = true -> exchanges (l ++ [u; a]) = true) /\
             (forall x, exchanges (x :: l) = true ->
                        exchanges (x :: l ++ [u; a]) = true)).
  { clear l. induction l as [| y l [IH1 IH2]].
    - split; [intros _; simpl; now rewrite Hu, Ha | discriminate].
    - split; [apply IH2 |].
      intros x H. simpl in H. simpl.
      destruct (role x =? "user"), (role y =? "assistant"); simpl in *;
        try discriminate. now apply IH1. }
  apply G.
Qed.

(** Where a call sits in a log that grew by one call at its end. *)
Lemma snoc_split (A : Type) (log pre post : list A) (c x : A) :
  (log ++ [c] = pre ++ x :: post)%list ->
  (post = [] /\ pre = log /\ x = c) \/
  (exists post', post = (post' ++ [c])%list /\ log = (pre ++ x :: post')%list).
Proof.
  intros H. induction post as [| y post0 _] using rev_ind.
  - left. apply app_inj_tail in H. destruct H as [-> ->]. auto.
  - right. exists post0.
    change (pre ++ x :: post0 ++ [y])%list
      with (pre ++ (x :: post0) ++ [y])%list in H.
    rewrite app_assoc in H. apply app_inj_tail in H.
    destruct H as [-> ->]. auto.
Qed.

Section ReachableFacts.

Variable lower : string -> string.
Variable provider : list call -> call -> reply.

(** To show that something holds of every reachable world it is enough to
    check the initial world and the eight transitions. *)
Lemma reachable_step_ind (P : world -> Prop) :
  P initial_world ->
  (forall w w', consistent (session w) -> P w ->
                step lower provider w w' -> P w') ->
  forall w, reachable lower provider w -> P w.
Proof.
  intros H0 HS w R. induction R as [| w e R IH]; [exact H0 |].
  destruct (run_step_cases lower provider w e
              (reachable_consistent lower provider w R)) as [-> | S].
  - exact IH.
  - exact (HS w _ (reachable_consistent lower provider w R) IH S).
Qed.

Lemma accepted_grows (log extra : list call) (m : GenerativeModel) :
  accepted provider log m -> accepted provider (log ++ extra) m.
Proof.
  intros [pre [post [text [-> P]]]].
  exists pre, (post ++ extra)%list, text. split; [| exact P].
  now rewrite <- app_assoc.
Qed.

(** The log of an unlocked store is the greeting followed by complete
    exchanges. *)
Lemma reachable_exchanges (w : world) :
  reachable lower provider w ->
  messages (session w) = [] \/
  exists rest,
    messages (session w) = greeting_message (personality (session w)) :: rest /\
    exchanges rest = true.
Proof.
  intros R. pattern w. revert w R. apply reachable_step_ind; cbv beta;
    [now left |].
  intros w w' Hc IH S.
  assert (Turn : forall prompt text,
            api_key_valid (session w) = true ->
            exists rest,
              messages (after_turn prompt text (session w)) =
                greeting_message (personality (session w)) :: rest /\
              exchanges rest = true).
  { intros prompt text V.
    apply (consistent_unlocked _ V) in Hc.
    destruct Hc as [m [rest0 [_ [_ L]]]].
    destruct IH as [E | [rest [L' X]]]; [rewrite E in L; discriminate |].
    exists (rest ++ [user_message prompt; assistant_message text])%list.
    split; [| now apply exchanges_append_turn].
    simpl. rewrite L'. simpl. now rewrite <- app_assoc. }
  destruct S; cbn [session];
    try (right; exists []; split; reflexivity);
    try (now left);
    try (right; now apply Turn).
  exact IH.
Qed.

(** Every logged call is well formed. *)
Lemma reachable_calls_well_formed (w : world) :
  reachable lower provider w -> Forall (well_formed_call lower) (calls w).
Proof.
  intros R. pattern w. revert w R. apply reachable_step_ind; cbv beta;
    [constructor |].
  intros w w' Hc IH S.
  assert (Send : forall prompt cs,
            api_key_valid (session w) = true ->
            PyStr.truthy prompt = true ->
            check_crisis_keywords lower prompt = false ->
            chat_session (session w) = Some cs ->
            well_formed_call lower
              (SendMessage cs
                 (context_prompt (PERSONALITIES (personality (session w)))
                    prompt))).
  { intros prompt cs V T F C.
    apply (consistent_unlocked _ V) in Hc.
    destruct Hc as [m [rest [_ [C' _]]]].
    rewrite C in C'. injection C' as ->.
    exists m, (personality (session w)), prompt. auto. }
  destruct S; cbn [calls]; try exact IH;
    apply Forall_app; (split; [exact IH |]); constructor;
    try constructor; try (now apply Send); split; reflexivity.
Qed.

(** The stored handle was accepted, and so was the handle of every chat a
    message was sent to, before that message went out. *)
Lemma reachable_handles_accepted (w : world) :
  reachable lower provider w ->
  (forall m, model (session w) = Some m -> accepted provider (calls w) m) /\
  (forall pre cs payload post,
     calls w = (pre ++ SendMessage cs payload :: post)%list ->
     accepted provider pre (chat_model cs)).
Proof.
  intros R. pattern w. revert w R. apply reachable_step_ind; cbv beta.
  - split; [discriminate |].
    intros [| c pre] cs payload post H; discriminate.
  - intros w w' Hc [IHm IHs] S.
    assert (Probe : forall api_key pre cs payload post,
              (calls w ++ [probe_call api_key] =
               pre ++ SendMessage cs payload :: post)%list ->
              accepted provider pre (chat_model cs)).
    { intros api_key pre cs payload post H.
      apply snoc_split in H. destruct H as [[_ [_ H]] | [post' [_ H]]];
        [discriminate | exact (IHs _ _ _ _ H)]. }
    assert (Send : forall cs0 text0 pre cs payload post,
              api_key_valid (session w) = true ->
              chat_session (session w) = Some cs0 ->
              (calls w ++ [SendMessage cs0 text0] =
               pre ++ SendMessage cs payload :: post)%list ->
              accepted provider pre (chat_model cs)).
    { intros cs0 text0 pre cs payload post V C H.
      apply snoc_split in H. destruct H as [[_ [-> H]] | [post' [_ H]]];
        [| exact (IHs _ _ _ _ H)].
      injection H as -> _.
      apply (consistent_unlocked _ V) in Hc.
      destruct Hc as [m [rest [M [C' _]]]].
      rewrite C in C'. injection C' as ->. simpl. now apply IHm. }
    destruct S; simpl; split.
    + intros m [= <-]. exists (calls w), [], text. auto.
    + intros pre cs payload post E. exact (Probe _ _ _ _ _ E).
    + intros m M. apply accepted_grows. now apply IHm.
    + intros pre cs payload post E. exact (Probe _ _ _ _ _ E).
    + intros m' [= <-]. now apply IHm.
    + exact IHs.
    + intros m' [= <-]. now apply IHm.
    + exact IHs.
    + discriminate.
    + exact IHs.
    + exact IHm.
    + exact IHs.
    + intros m M. apply accepted_grows. now apply IHm.
    + intros pre cs' payload post E. now apply (Send _ _ _ _ _ _ H H2 E).
    + intros m M. apply accepted_grows. now apply IHm.
    + intros pre cs' payload post E. now apply (Send _ _ _ _ _ _ H H2 E).
Qed.

End ReachableFacts.

(** ** What one interaction does to the call log and to the store *)

Section InteractionFacts.

Variable lower : string -> string.
Variable provider : list call -> call -> reply.

Lemma render_calls (w : world) :
  calls (world_of (script lower provider w Render)) = calls w.
Proof.
  destruct (script_render_settles lower provider w) as [-> | ->]; reflexivity.
Qed.

Lemma render_frame (w : world) :
  personality (session (world_of (script lower provider w Render))) =
    personality (session w) /\
  api_key_valid (session (world_of (script lower provider w Render))) =
    api_key_valid (session w) /\
  model (session (world_of (script lower provider w Render))) =
    model (session w).
Proof.
  destruct (script_render_settles lower provider w) as [-> | ->]; simpl;
    [repeat split |].
  destruct (greet_if_needed_frame (session w)) as [V [M P]]. auto.
Qed.

(** The call log after an interaction: unchanged, or longer by the probe of a
    submitted key, or longer by one chat request. *)
Lemma run_calls_cases (w : world) (e : event) :
  calls (run lower provider w e) = calls w \/
  (exists k, e = ClickValidate k /\
             calls (run lower provider w e) = (calls w ++ [probe_call k])%list) \/
  (exists p cs payload,
     e = ChatInput p /\
     calls (run lower provider w e) =
       (calls w ++ [SendMessage cs payload])%list).
Proof.
  destruct (api_key_valid (session w)) eqn:V.
  - destruct e.
    + left. rewrite run_fall_through; [reflexivity | exact V | reflexivity | discriminate].
    + left. rewrite run_fall_through; [reflexivity | exact V | reflexivity | discriminate].
    + left. destruct (persona_key_eqb key (personality (session w))) eqn:E.
      * rewrite run_fall_through; [reflexivity | exact V | | discriminate].
        simpl. now rewrite E.
      * rewrite (run_switch lower provider w _ key V); [reflexivity |].
        simpl. now rewrite E.
    + left. destruct (persona_key_eqb (rec_personality age_group concern)
                        (personality (session w))) eqn:E.
      * rewrite run_fall_through; [reflexivity | exact V | | discriminate].
        simpl. now rewrite E.
      * rewrite (run_switch lower provider w _
                   (rec_personality age_group concern) V); [reflexivity |].
        simpl. now rewrite E.
    + left. erewrite run_sidebar_rerun; [| exact V | reflexivity].
      now rewrite render_calls.
    + left. erewrite run_sidebar_rerun; [| exact V | reflexivity].
      now rewrite render_calls.
    + destruct (PyStr.truthy prompt) eqn:T.
      * rewrite (run_chat lower provider w prompt V T). cbn [calls].
        unfold respond.
        destruct (check_crisis_keywords lower prompt); [now left |].
        destruct (chat_session _) as [cs |]; [| now left].
        right; right. exists prompt, cs. eexists. split; [reflexivity |].
        destruct (provider (calls w) _); reflexivity.
      * left. rewrite run_fall_through; [reflexivity | exact V | reflexivity |].
        intros p [= <-]. exact T.
  - destruct e; try (left; rewrite run_locked_other;
                     [reflexivity | exact V | discriminate]).
    destruct (PyStr.truthy api_key) eqn:T.
    + right; left. exists api_key. split; [reflexivity |].
      destruct (provider (calls w) (probe_call api_key)) as [text | reason] eqn:P.
      * now rewrite (run_validate_ok lower provider w api_key text V T P).
      * now rewrite (run_validate_raise lower provider w api_key reason V T P).
    + left. rewrite run_locked_other; [reflexivity | exact V |].
      intros k [= <-]. exact T.
Qed.

(** Which parts of the store an interaction can touch. *)
Lemma run_frame (w : world) (e : event) :
  ((forall k, e <> ClickPersonality k) ->
   (forall a c m, e <> ClickAssess a c m) ->
   personality (session (run lower provider w e)) = personality (session w)) /\
  ((forall k, e <> ClickValidate k) -> e <> ClickChangeKey ->
   api_key_valid (session (run lower provider w e)) = api_key_valid (session w) /\
   model (session (run lower provider w e)) = model (session w)).
Proof.
  destruct (greet_if_needed_frame (session w)) as [GV [GM GP]].
  destruct (api_key_valid (session w)) eqn:V.
  - destruct e.
    + rewrite run_fall_through; [| exact V | reflexivity | discriminate].
      simpl. rewrite GV, GM, GP. auto.
    + rewrite run_fall_through; [| exact V | reflexivity | discriminate].
      simpl. rewrite GV, GM, GP. auto.
    + split; [intros N; now elim (N key) |]. intros _ _.
      destruct (persona_key_eqb key (personality (session w))) eqn:E.
      * rewrite run_fall_through; [| exact V | simpl; now rewrite E | discriminate].
        simpl. rewrite GV, GM. auto.
      * rewrite (run_switch lower provider w _ key V); [| simpl; now rewrite E].
        simpl.
        destruct (greet_if_needed_frame (switch_to key (session w)))
          as [SV [SM _]].
        rewrite SV, SM. simpl. auto.
    + split; [intros _ N; now elim (N age_group concern mood) |]. intros _ _.
      destruct (persona_key_eqb (rec_personality age_group concern)
                  (personality (session w))) eqn:E.
      * rewrite run_fall_through; [| exact V | simpl; now rewrite E | discriminate].
        simpl. rewrite GV, GM. auto.
      * rewrite (run_switch lower provider w _
                   (rec_personality age_group concern) V);
          [| simpl; now rewrite E].
        simpl.
        destruct (greet_if_needed_frame
                    (switch_to (rec_personality age_group concern) (session w)))
          as [SV [SM _]].
        rewrite SV, SM. simpl. auto.
    + erewrite run_sidebar_rerun; [| exact V | reflexivity].
      destruct (render_frame
                  {| session := set_chat_session None (set_messages [] (session w));
                     calls := calls w |}) as [RP [RV RM]].
      rewrite RP, RV, RM. simpl. auto.
    + split; [| intros _ N; now elim N]. intros _ _.
      erewrite run_sidebar_rerun; [| exact V | reflexivity].
      rewrite render_locked; reflexivity.
    + destruct (PyStr.truthy prompt) eqn:T.
      * rewrite (run_chat lower provider w prompt V T). cbn [session].
        rewrite greet_if_needed_after_append2. simpl.
        rewrite GV, GM, GP. auto.
      * rewrite run_fall_through;
          [| exact V | reflexivity | intros p [= <-]; exact T].
        simpl. rewrite GV, GM, GP. auto.
  - destruct e; try (rewrite run_locked_other;
                     [now auto | exact V | discriminate]).
    split; [intros _ _ | intros N; now elim (N api_key)].
    destruct (PyStr.truthy api_key) eqn:T.
    + destruct (provider (calls w) (probe_call api_key)) as [text | reason] eqn:P.
      * rewrite (run_validate_ok lower provider w api_key text V T P).
        cbn [session].
        match goal with
        | |- personality (greet_if_needed ?s) = _ =>
            destruct (greet_if_needed_frame s) as [_ [_ ->]]
        end.
        reflexivity.
      * now rewrite (run_validate_raise lower provider w api_key reason V T P).
    + rewrite run_locked_other; [reflexivity | exact V |].
      intros k [= <-]. exact T.
Qed.

End InteractionFacts.

Lemma append_cancel_l (x a b : string) : x ++ a = x ++ b -> a = b.
Proof.
  induction x as [| c x IH]; simpl; [auto |].
  intros H. injection H as H. auto.
Qed.

Lemma append_cancel_r (a b t : string) : a ++ t = b ++ t -> a = b.
Proof.
  revert b; induction a as [| c a IH]; intros [| d b] H; simpl in H.
  - reflexivity.
  - apply (f_equal String.length) in H. simpl in H.
    rewrite PyStrFacts.length_append in H. lia.
  - apply (f_equal String.length) in H. simpl in H.
    rewrite PyStrFacts.length_append in H. lia.
  - injection H as -> H. f_equal. auto.
Qed.

(** ** The locked session *)

(** X1.  While the key is not validated, nothing but the submission of a
    non-empty key has any effect: the store and the call log stay as they
    are.  This covers the empty key, for which no probe is made. *)
Theorem locked_session_inert
    (lower : string -> string) (provider : list call -> call -> reply)
    (w : world) (e : event) :
  api_key_valid (session w) = false ->
  (forall k, e = ClickValidate k -> k = "") ->
  run lower provider w e = w.
Proof.
  intros V N. apply run_locked_other; [exact V |].
  intros k E. apply truthy_false_empty. now apply N.
Qed.

Lemma locked_session_inert_witness :
  run PyStr.ascii_lower (always_ok "ok") initial_world (ClickValidate "")
  = initial_world.
Proof.
  apply (locked_session_inert PyStr.ascii_lower (always_ok "ok") initial_world
           (ClickValidate "")); [reflexivity |].
  intros k E. injection E as <-. reflexivity.
Defined.

(** ** Provider calls *)

(** X2.  An interaction never removes or rewrites a logged call and adds at
    most one: neither the probe nor a chat request is retried. *)
Theorem at_most_one_call
    (lower : string -> string) (provider : list call -> call -> reply)
    (w : world) (e : event) :
  exists added,
    calls (run lower provider w e) = (calls w ++ added)%list /\
    (List.length added <= 1)%nat.
Proof.
  destruct (run_calls_cases lower provider w e)
    as [E | [[k [_ E]] | [p [cs [payload [_ E]]]]]].
  - exists []. rewrite E, app_nil_r. split; [reflexivity | simpl; lia].
  - exists [probe_call k]. split; [exact E | simpl; lia].
  - exists [SendMessage cs payload]. split; [exact E | simpl; lia].
Qed.

(** X3.  Only a key submission and a chat input can reach the provider:
    persona buttons, the recommendation, clear chat, change key and plain
    renders leave the call log as it is. *)
Theorem calls_only_on_key_or_chat
    (lower : string -> string) (provider : list call -> call -> reply)
    (w : world) (e : event) :
  (forall k, e <> ClickValidate k) ->
  (forall p, e <> ChatInput p) ->
  calls (run lower provider w e) = calls w.
Proof.
  intros NV NC.
  destruct (run_calls_cases lower provider w e)
    as [E | [[k [K _]] | [p [cs [payload [K _]]]]]].
  - exact E.
  - now elim (NV k).
  - now elim (NC p).
Qed.

Lemma calls_only_on_key_or_chat_witness :
  calls (run PyStr.ascii_lower (always_raise "down") unlocked_world
           (ClickAssess "Other" "Parenting" 3)) = calls unlocked_world.
Proof.
  apply (calls_only_on_key_or_chat PyStr.ascii_lower (always_raise "down")
           unlocked_world (ClickAssess "Other" "Parenting" 3)); discriminate.
Defined.

(** X5.  Whenever a run of the script ends in [st.rerun()], the run that
    follows stops or completes, and its world is the result of the
    interaction: no interaction takes more than two runs. *)
Theorem rerun_settles
    (lower : string -> string) (provider : list call -> call -> reply)
    (w w1 : world) (e : event) :
  script lower provider w e = Rerun w1 ->
  exists w2,
    (script lower provider w1 Render = Stopped w2 \/
     script lower provider w1 Render = Completed w2) /\
    run lower provider w e = w2.
Proof.
  intros E. unfold run. rewrite E.
  destruct (script_render_settles lower provider w1) as [S | S]; rewrite S;
    eexists; split; eauto.
Qed.

Lemma rerun_settles_witness :
  exists w2,
    (script PyStr.ascii_lower (always_ok "ok")
       {| session := set_chat_session None
                       (set_messages [] (session unlocked_world));
          calls := calls unlocked_world |} Render = Stopped w2 \/
     script PyStr.ascii_lower (always_ok "ok")
       {| session := set_chat_session None
                       (set_messages [] (session unlocked_world));
          calls := calls unlocked_world |} Render = Completed w2) /\
    run PyStr.ascii_lower (always_ok "ok") unlocked_world ClickClear = w2.
Proof.
  apply (rerun_settles PyStr.ascii_lower (always_ok "ok") unlocked_world _
           ClickClear).
  reflexivity.
Defined.

(** ** Idle interactions *)

(** X4.  In any session reached by the script, a run with no widget fired
    and an empty chat submission change nothing: no second greeting, no
    message, no call. *)
Theorem idle_interactions
    (lower : string -> string) (provider : list call -> call -> reply)
    (w : world) :
  reachable lower provider w ->
  run lower provider w Render = w /\
  run lower provider w (ChatInput "") = w.
Proof.
  intros R. destruct (api_key_valid (session w)) eqn:V.
  - split;
      (rewrite run_fall_through;
       [ rewrite (reachable_greeted lower provider w R V); apply world_eta
       | exact V
       | reflexivity
       | try discriminate ]).
    intros p [= <-]. reflexivity.
  - split; (rewrite run_locked_other; [reflexivity | exact V | discriminate]).
Qed.

Lemma idle_interactions_witness :
  run PyStr.ascii_lower (always_ok "ok") unlocked_world Render = unlocked_world /\
  run PyStr.ascii_lower (always_ok "ok") unlocked_world (ChatInput "")
  = unlocked_world.
Proof.
  exact (idle_interactions PyStr.ascii_lower (always_ok "ok") unlocked_world
           unlocked_world_reachable).
Defined.

(** ** Clear chat and change key *)

(** X6.  Clear chat in an unlocked store with a handle leaves the store
    freshly started for the same persona and the same handle: the log holds
    that persona's greeting only, the chat is started anew from the seed, and
    no call is made. *)
Theorem clear_chat_restarts
    (lower : string -> string) (provider : list call -> call -> reply)
    (w : world) (m : GenerativeModel) :
  api_key_valid (session w) = true ->
  model (session w) = Some m ->
  run lower provider w ClickClear =
    {| session := started m (personality (session w)); calls := calls w |}.
Proof.
  intros V M. erewrite run_sidebar_rerun; [| exact V | reflexivity].
  rewrite render_unlocked; [| exact V]. cbn [session calls].
  now rewrite (greet_if_needed_started _ m).
Qed.

Lemma clear_chat_restarts_witness :
  run PyStr.ascii_lower flaky_chat
    (run PyStr.ascii_lower flaky_chat unlocked_world (ChatInput "hello"))
    ClickClear =
  {| session := started (probe_handle "key") sage;
     calls :=
       calls (run PyStr.ascii_lower flaky_chat unlocked_world
                (ChatInput "hello")) |}.
Proof.
  apply (clear_chat_restarts PyStr.ascii_lower flaky_chat
           (run PyStr.ascii_lower flaky_chat unlocked_world (ChatInput "hello"))
           (probe_handle "key")); reflexivity.
Defined.

Lemma change_key_locks_helper
    (lower : string -> string) (provider : list call -> call -> reply)
    (w : world) :
  api_key_valid (session w) = true ->
  run lower provider w ClickChangeKey =
    {| session := locked_session (personality (session w)); calls := calls w |}.
Proof.
  intros V. erewrite run_sidebar_rerun; [| exact V | reflexivity].
  now rewrite render_locked.
Qed.

(** X7.  Change key in an unlocked store drops the handle, the chat and the
    log and locks the session; the selected persona is the one thing kept,
    and no call is made. *)
Theorem change_key_locks
    (lower : string -> string) (provider : list call -> call -> reply)
    (w : world) :
  api_key_valid (session w) = true ->
  run lower provider w ClickChangeKey =
    {| session := locked_session (personality (session w)); calls := calls w |}.
Proof.
  exact (change_key_locks_helper lower provider w).
Qed.

Lemma change_key_locks_witness :
  run PyStr.ascii_lower (always_ok "ok") unlocked_world ClickChangeKey =
    {| session := locked_session sage; calls := calls unlocked_world |}.
Proof.
  apply (change_key_locks PyStr.ascii_lower (always_ok "ok") unlocked_world).
  reflexivity.
Defined.

(** X8.  Change key followed by an accepted new key starts the session anew
    under the new handle with the persona that was selected before; the old
    conversation is gone and the one call made is the probe of the new key. *)
Theorem rekey_keeps_persona
    (lower : string -> string) (provider : list call -> call -> reply)
    (w : world) (api_key text : string) :
  api_key_valid (session w) = true ->
  PyStr.truthy api_key = true ->
  provider (calls w) (probe_call api_key) = Ok text ->
  run lower provider (run lower provider w ClickChangeKey)
    (ClickValidate api_key) =
    {| session := started (probe_handle api_key) (personality (session w));
       calls := (calls w ++ [probe_call api_key])%list |}.
Proof.
  intros V T P. rewrite (change_key_locks_helper lower provider w V).
  rewrite (run_validate_ok lower provider _ api_key text);
    [| reflexivity | exact T | exact P].
  cbn [session calls].
  now rewrite (greet_if_needed_started _ (probe_handle api_key)).
Qed.

Lemma rekey_keeps_persona_witness :
  let w := run PyStr.ascii_lower (always_ok "ok") unlocked_world
             (ClickPersonality bridge) in
  run PyStr.ascii_lower (always_ok "ok")
    (run PyStr.ascii_lower (always_ok "ok") w ClickChangeKey)
    (ClickValidate "second key") =
    {| session := started (probe_handle "second key") bridge;
       calls := (calls w ++ [probe_call "second key"])%list |}.
Proof.
  exact (rekey_keeps_persona PyStr.ascii_lower (always_ok "ok")
           (run PyStr.ascii_lower (always_ok "ok") unlocked_world
              (ClickPersonality bridge))
           "second key" "ok" eq_refl eq_refl eq_refl).
Defined.

(** ** The answered turn *)

(** X9.  When the chat call of a normal turn returns, the log grows by the
    user's message and the returned text, unchanged, as the assistant turn;
    the request is the one call added, and persona, chat, key flag and handle
    stay as they were. *)
Theorem replied_turn
    (lower : string -> string) (provider : list call -> call -> reply)
    (w : world) (prompt text : string) (cs : ChatSession) :
  api_key_valid (session w) = true ->
  chat_session (session w) = Some cs ->
  PyStr.truthy prompt = true ->
  check_crisis_keywords lower prompt = false ->
  provider (calls w)
    (SendMessage cs
       (context_prompt (PERSONALITIES (personality (session w))) prompt))
    = Ok text ->
  run lower provider w (ChatInput prompt) =
    {| session := after_turn prompt text (session w);
       calls :=
         (calls w ++
          [SendMessage cs
             (context_prompt (PERSONALITIES (personality (session w))) prompt)])%list |}
  /\
  messages (after_turn prompt text (session w)) =
    (messages (session w) ++ [user_message prompt; assistant_message text])%list /\
  personality (after_turn prompt text (session w)) = personality (session w) /\
  chat_session (after_turn prompt text (session w)) = Some cs /\
  api_key_valid (after_turn prompt text (session w)) = true /\
  model (after_turn prompt text (session w)) = model (session w).
Proof.
  intros V C T F P. split.
  - rewrite (run_chat lower provider w prompt V T).
    rewrite (greet_if_needed_chat (session w) cs C).
    unfold respond. rewrite F.
    cbn [chat_session append_message set_messages personality].
    rewrite C, P. cbn [fst snd].
    now rewrite (greet_if_needed_chat _ cs) by exact C.
  - simpl. rewrite <- app_assoc. repeat split; auto.
Qed.

Lemma replied_turn_witness :
  messages (session (run PyStr.ascii_lower (always_ok "Tell me more.")
                       unlocked_world (ChatInput "exams stress me"))) =
    (messages (session unlocked_world) ++
     [user_message "exams stress me"; assistant_message "Tell me more."])%list.
Proof.
  destruct (replied_turn PyStr.ascii_lower (always_ok "Tell me more.")
              unlocked_world "exams stress me" "Tell me more."
              (start_chat (probe_handle "key") (seed_history (PERSONALITIES sage)))
              eq_refl eq_refl eq_refl eq_refl eq_refl) as [E [M _]].
  rewrite E. exact M.
Defined.

(** ** Invariants of every reachable session *)

(** X10.  Between interactions the store is in one of two shapes.  Locked:
    no handle, no chat, an empty log.  Unlocked: a handle, the chat started
    from that handle and seeded for the active persona, and a log that opens
    with the active persona's greeting. *)
Theorem reachable_session_shape
    (lower : string -> string) (provider : list call -> call -> reply)
    (w : world) :
  reachable lower provider w ->
  (api_key_valid (session w) = false ->
   model (session w) = None /\ chat_session (session w) = None /\
   messages (session w) = []) /\
  (api_key_valid (session w) = true ->
   exists m rest,
     model (session w) = Some m /\
     chat_session (session w) =
       Some (start_chat m (seed_history (PERSONALITIES (personality (session w))))) /\
     messages (session w) = greeting_message (personality (session w)) :: rest).
Proof.
  intros R. pose proof (reachable_consistent lower provider w R) as H.
  split; intros V.
  - now apply (consistent_locked _ V).
  - now apply (consistent_unlocked _ V).
Qed.

Lemma reachable_session_shape_witness :
  exists m rest,
    model (session unlocked_world) = Some m /\
    chat_session (session unlocked_world) =
      Some (start_chat m (seed_history (PERSONALITIES sage))) /\
    messages (session unlocked_world) = greeting_message sage :: rest.
Proof.
  exact (proj2 (reachable_session_shape PyStr.ascii_lower (always_ok "ok")
                  unlocked_world unlocked_world_reachable) eq_refl).
Defined.

(** X11.  In every unlocked session reached by the script the log is the
    active persona's greeting followed by complete exchanges: each user
    message is followed at once by one assistant message, and the log never
    ends on a user message. *)
Theorem log_is_greeting_then_exchanges
    (lower : string -> string) (provider : list call -> call -> reply)
    (w : world) :
  reachable lower provider w ->
  api_key_valid (session w) = true ->
  exists rest,
    messages (session w) = greeting_message (personality (session w)) :: rest /\
    exchanges rest = true.
Proof.
  intros R V.
  destruct (reachable_exchanges lower provider w R) as [E | H]; [| exact H].
  pose proof (reachable_consistent lower provider w R) as C.
  apply (consistent_unlocked _ V) in C. destruct C as [m [rest [_ [_ L]]]].
  rewrite E in L. discriminate.
Qed.

Lemma log_is_greeting_then_exchanges_witness :
  exists rest,
    messages (session unlocked_world) = greeting_message sage :: rest /\
    exchanges rest = true.
Proof.
  exact (log_is_greeting_then_exchanges PyStr.ascii_lower (always_ok "ok")
           unlocked_world unlocked_world_reachable eq_refl).
Defined.

(** X12.  Every call the script has made is either the fixed probe "Hello"
    on a gemini-pro handle, or a chat request whose payload frames a user
    message that is not empty and was not flagged by the crisis filter, sent
    to a chat seeded for the persona of that framing.  No flagged message
    ever reaches the provider. *)
Theorem logged_calls_are_well_formed
    (lower : string -> string) (provider : list call -> call -> reply)
    (w : world) (c : call) :
  reachable lower provider w ->
  In c (calls w) ->
  well_formed_call lower c.
Proof.
  intros R. revert c. apply Forall_forall.
  now apply reachable_calls_well_formed with (provider := provider).
Qed.

Lemma logged_calls_are_well_formed_witness :
  well_formed_call PyStr.ascii_lower
    (SendMessage
       (start_chat (probe_handle "key") (seed_history (PERSONALITIES sage)))
       (context_prompt (PERSONALITIES sage) "hello")).
Proof.
  apply (logged_calls_are_well_formed PyStr.ascii_lower (always_ok "ok")
           (run PyStr.ascii_lower (always_ok "ok") unlocked_world
              (ChatInput "hello"))).
  - apply reachable_run, unlocked_world_reachable.
  - right. left. reflexivity.
Defined.

(** X13.  A chat request is only ever sent through a handle whose probe the
    provider had accepted earlier in the same log. *)
Theorem chats_use_accepted_handle
    (lower : string -> string) (provider : list call -> call -> reply)
    (w : world) (pre post : list call) (cs : ChatSession) (payload : string) :
  reachable lower provider w ->
  calls w = (pre ++ SendMessage cs payload :: post)%list ->
  accepted provider pre (chat_model cs).
Proof.
  intros R E.
  exact (proj2 (reachable_handles_accepted lower provider w R) _ _ _ _ E).
Qed.

Lemma chats_use_accepted_handle_witness :
  accepted (always_ok "ok") [probe_call "key"] (probe_handle "key").
Proof.
  apply (chats_use_accepted_handle PyStr.ascii_lower (always_ok "ok")
           (run PyStr.ascii_lower (always_ok "ok") unlocked_world
              (ChatInput "hello"))
           [probe_call "key"] []
           (start_chat (probe_handle "key") (seed_history (PERSONALITIES sage)))
           (context_prompt (PERSONALITIES sage) "hello")).
  - apply reachable_run, unlocked_world_reachable.
  - reflexivity.
Defined.

(** X19.  In every session reached by the script an interaction either
    changes nothing or is one of eight transitions: unlock, reject, switch,
    clear, revoke, crisis turn, answered turn, apology turn. *)
Theorem interactions_are_transitions
    (lower : string -> string) (provider : list call -> call -> reply)
    (w : world) (e : event) :
  reachable lower provider w ->
  run lower provider w e = w \/
  step lower provider w (run lower provider w e).
Proof.
  intros R. apply run_step_cases. now apply reachable_consistent with (1 := R).
Qed.

Lemma interactions_are_transitions_witness :
  run PyStr.ascii_lower (always_ok "ok") unlocked_world ClickChangeKey
    = unlocked_world \/
  step PyStr.ascii_lower (always_ok "ok") unlocked_world
    (run PyStr.ascii_lower (always_ok "ok") unlocked_world ClickChangeKey).
Proof.
  exact (interactions_are_transitions PyStr.ascii_lower (always_ok "ok")
           unlocked_world ClickChangeKey unlocked_world_reachable).
Defined.

(** ** What an interaction leaves alone *)

(** X17.  The active persona changes only through a persona button or the
    recommendation: key submission, clear chat, change key, chat turns and
    plain renders keep it. *)
Theorem persona_changes_only_by_selection
    (lower : string -> string) (provider : list call -> call -> reply)
    (w : world) (e : event) :
  (forall k, e <> ClickPersonality k) ->
  (forall a c m, e <> ClickAssess a c m) ->
  personality (session (run lower provider w e)) = personality (session w).
Proof. exact (proj1 (run_frame lower provider w e)). Qed.

Lemma persona_changes_only_by_selection_witness :
  personality
    (session (run PyStr.ascii_lower (always_ok "ok")
                (run PyStr.ascii_lower (always_ok "ok") unlocked_world
                   (ClickPersonality spark))
                ClickChangeKey)) = spark.
Proof.
  apply (persona_changes_only_by_selection PyStr.ascii_lower (always_ok "ok")
           (run PyStr.ascii_lower (always_ok "ok") unlocked_world
              (ClickPersonality spark))
           ClickChangeKey); discriminate.
Defined.

(** X18.  The key flag and the handle change only through a key submission
    or change key: persona switches, recommendations, clear chat and chat
    turns, failed ones included, never lock the session or replace the
    handle. *)
Theorem key_changes_only_by_gate
    (lower : string -> string) (provider : list call -> call -> reply)
    (w : world) (e : event) :
  (forall k, e <> ClickValidate k) ->
  e <> ClickChangeKey ->
  api_key_valid (session (run lower provider w e)) = api_key_valid (session w) /\
  model (session (run lower provider w e)) = model (session w).
Proof. exact (proj2 (run_frame lower provider w e)). Qed.

Lemma key_changes_only_by_gate_witness :
  api_key_valid
    (session (run PyStr.ascii_lower (always_raise "quota exceeded")
                unlocked_world (ChatInput "hello"))) = true /\
  model
    (session (run PyStr.ascii_lower (always_raise "quota exceeded")
                unlocked_world (ChatInput "hello"))) =
    Some (probe_handle "key").
Proof.
  apply (key_changes_only_by_gate PyStr.ascii_lower
           (always_raise "quota exceeded") unlocked_world (ChatInput "hello"));
    discriminate.
Defined.

(** ** The payload and the filter *)

(** X14.  For a fixed persona the payload determines the user's text: two
    messages with the same payload are the same message. *)
Theorem context_prompt_injective (p : Persona.t) (a b : string) :
  context_prompt p a = context_prompt p b -> a = b.
Proof.
  unfold context_prompt. intros H.
  do 5 apply append_cancel_l in H.
  now apply append_cancel_r in H.
Qed.

Lemma context_prompt_injective_witness :
  context_prompt (PERSONALITIES nurture) "hello" =
    context_prompt (PERSONALITIES nurture) "hello" /\
  "hello" = "hello".
Proof.
  split; [reflexivity |].
  apply (context_prompt_injective (PERSONALITIES nurture) "hello" "hello").
  reflexivity.
Defined.

Lemma check_crisis_keywords_ascii_case_witness :
  check_crisis_keywords PyStr.ascii_lower
    ("Sometimes I want to " ++ "Kill MySelf" ++ ", honestly") = true.
Proof.
  apply (check_crisis_keywords_ascii_case "kill myself" "Kill MySelf"
           "Sometimes I want to " ", honestly").
  - right. left. reflexivity.
  - reflexivity.
Defined.

(** X16.  On ASCII text the filter looks at no context: a flagged message
    stays flagged whatever is written before and after it. *)
Theorem flagged_in_any_context (message pre post : string) :
  check_crisis_keywords PyStr.ascii_lower message = true ->
  check_crisis_keywords PyStr.ascii_lower (pre ++ message ++ post) = true.
Proof.
  unfold check_crisis_keywords. intros H.
  apply existsb_exists in H. destruct H as [keyword [HIn H]].
  apply existsb_exists. exists keyword. split; [exact HIn |].
  apply PyStrFacts.str_in_spec in H. destruct H as [x [y H]].
  apply PyStrFacts.str_in_spec.
  exists (PyStr.ascii_lower pre ++ x), (y ++ PyStr.ascii_lower post).
  rewrite !PyStrFacts.ascii_lower_append, H.
  now rewrite !PyStrFacts.append_assoc.
Qed.

Lemma flagged_in_any_context_witness :
  check_crisis_keywords PyStr.ascii_lower
    ("My character in the game will " ++ "DIE" ++ " at level 3") = true.
Proof.
  apply (flagged_in_any_context "DIE" "My character in the game will "
           " at level 3").
  reflexivity.
Defined.

(** ** The turn history of the chat *)

Section ChatObjectFacts.

Variable lower : string -> string.
Variable provider : list call -> call -> reply.











End ChatObjectFacts.



(** Three answered turns and a flagged one in between: the chat holds the
    two seeded turns and the three answered exchanges, and the flagged
    message is in the log only. *)
Example chat_history_accumulates :
  let run1 := run PyStr.ascii_lower counting_chat in
  let view1 := run_view PyStr.ascii_lower counting_chat in
  let w1 := run1 initial_world (ClickValidate "key") in
  let v1 := view1 initial_world (ClickValidate "key") initial_chat_view in
  let w2 := run1 w1 (ChatInput "one") in
  let v2 := view1 w1 (ChatInput "one") v1 in
  let w3 := run1 w2 (ChatInput "two") in
  let v3 := view1 w2 (ChatInput "two") v2 in
  let w4 := run1 w3 (ChatInput "I feel worthless") in
  let v4 := view1 w3 (ChatInput "I feel worthless") v3 in
  let w5 := run1 w4 (ChatInput "three") in
  let v5 := view1 w4 (ChatInput "three") v4 in
  live_history v5 =
    (seed_history (PERSONALITIES sage) ++
     [ user_turn (context_prompt (PERSONALITIES sage) "one");
       model_turn "first reply";
       user_turn (context_prompt (PERSONALITIES sage) "two");
       model_turn "second reply";
       user_turn (context_prompt (PERSONALITIES sage) "three");
       model_turn "later reply" ])%list /\
  List.length (messages (session w5)) = 9%nat /\
  List.length (sent v5) = 3%nat.
Proof. repeat split. Qed.

(** [framed] goes through the exchanges of a conversation one by one. *)
Lemma framed_conversation_app
    (lower : string -> string) (p : Persona.t)
    (log : list message) (h : list turn) :
  conversation lower p log h ->
  forall tail, framed p (log ++ tail) = (framed p log ++ framed p tail)%list.
Proof.
  induction 1 as [| log h prompt _ IH _ | log h prompt text _ IH _
                  | log h prompt reason _ IH _]; intros tail;
    [reflexivity | | |];
    rewrite <- app_assoc, IH, (IH [_; _]), <- app_assoc; reflexivity.
Qed.

(** When no message of the log was flagged and no reply is an apology, the
    turn history is the whole log, exchange by exchange. *)
Lemma conversation_all_answered
    (lower : string -> string) (p : Persona.t)
    (log : list message) (h : list turn) :
  conversation lower p log h ->
  (forall msg, In msg log -> role msg = "user" ->
               check_crisis_keywords lower (content msg) = false) ->
  (forall msg reason, In msg log -> role msg = "assistant" ->
                      content msg <> apology reason) ->
  h = framed p log.
Proof.
  induction 1 as [| log h prompt C IH F | log h prompt text C IH F
                  | log h prompt reason C IH F]; intros NF NA.
  - reflexivity.
  - exfalso.
    assert (E : check_crisis_keywords lower prompt = false).
    { apply (NF (user_message prompt)); [| reflexivity].
      apply in_or_app. right. now left. }
    congruence.
  - rewrite (framed_conversation_app lower p log h C). simpl.
    rewrite <- IH; [reflexivity | |].
    + intros msg I. apply NF. apply in_or_app. now left.
    + intros msg r I. apply NA. apply in_or_app. now left.
  - exfalso.
    apply (NA (assistant_message (apology reason)) reason);
      [| reflexivity | reflexivity].
    apply in_or_app. right. right. now left.
Qed.
